(** * Ethernet layer of gopacket (layers/ethernet.go)

    A shallow embedding of [EthernetHeader], [Ethernet.DecodeFromBytes] and
    [Ethernet.SerializeTo], and the properties of the link-layer header:
    decoding, the length/type disambiguation, truncation, serialization with
    padding, and the address swap.

    Conventions.
    - A Go [[]byte] is a [list byte]; the capacity of a slice is taken to be
      its length.
    - Go [int] values are [Z]; [uint16] values are [Z] with the wrap-around
      written out ([uint16]).
    - A run-time panic (slice or index out of range) is [None] in the monad
      [M]; a Go [error] result is an [option error].
    - A pointer receiver ([eth *Ethernet]) and the interfaces a method
      mutates ([DecodeFeedback], [SerializeBuffer]) are passed in and
      returned. *)

From Stdlib Require Import ZArith List Lia Bool.
From Stdlib.Strings Require Import Byte.
Import ListNotations.
Local Open Scope Z_scope.

(** ** Panics *)

Definition M (A : Type) : Type := option A.

Definition ret {A : Type} (a : A) : M A := Some a.

Definition panic {A : Type} : M A := None.

Definition bind {A B : Type} (m : M A) (k : A -> M B) : M B :=
  match m with
  | Some a => k a
  | None => None
  end.

Notation "x <- m ;; k" := (bind m (fun x => k))
  (at level 61, m at next level, right associativity).

(** ** Bytes and integers *)

Definition byte_to_Z (b : byte) : Z := Z.of_N (Byte.to_N b).

(** The conversion [byte(v)] of an unsigned integer keeps the low 8 bits. *)
Definition byte_of_Z (v : Z) : byte :=
  match Byte.of_N (Z.to_N (v mod 256)) with
  | Some b => b
  | None => x00
  end.

(** The conversion [uint16(v)] keeps the low 16 bits. *)
Definition uint16 (v : Z) : Z := v mod 65536.

(** ** Slices *)

Definition len {A : Type} (s : list A) : Z := Z.of_nat (length s).

(** The slice expression [s[lo:hi]]; it panics unless [0 <= lo <= hi <= len s]. *)
Definition slice {A : Type} (s : list A) (lo hi : Z) : M (list A) :=
  if (0 <=? lo) && (lo <=? hi) && (hi <=? len s)
  then ret (firstn (Z.to_nat (hi - lo)) (skipn (Z.to_nat lo) s))
  else panic.

(** [s[lo:]] *)
Definition slice_from {A : Type} (s : list A) (lo : Z) : M (list A) :=
  slice s lo (len s).

(** [s[:hi]] *)
Definition slice_to {A : Type} (s : list A) (hi : Z) : M (list A) :=
  slice s 0 hi.

(** A slice that is written through shares its memory with the slice it was
    cut from.  Such a slice is a [window] [[w_lo, w_hi)] on the memory [mem]
    of the underlying array; writes go to [mem]. *)
Record window : Type := Window { w_lo : Z; w_hi : Z }.

Definition w_len (w : window) : Z := w_hi w - w_lo w.

Definition whole {A : Type} (mem : list A) : window := Window 0 (len mem).

(** [w[a:b]] *)
Definition sub (w : window) (a b : Z) : M window :=
  if (0 <=? a) && (a <=? b) && (b <=? w_len w)
  then ret (Window (w_lo w + a) (w_lo w + b))
  else panic.

(** [w[a:]] *)
Definition sub_from (w : window) (a : Z) : M window := sub w a (w_len w).

(** The bytes seen through a window. *)
Definition read {A : Type} (mem : list A) (w : window) : list A :=
  firstn (Z.to_nat (w_len w)) (skipn (Z.to_nat (w_lo w)) mem).

(** The builtin [copy(dst, src)] with [dst] the window [w] of [mem]: it
    copies [min(len(dst), len(src))] elements and returns the memory.  [src]
    is a value, so overlapping source and destination behave as in Go. *)
Definition copy {A : Type} (mem : list A) (w : window) (src : list A) : list A :=
  let n := Nat.min (Z.to_nat (w_len w)) (length src) in
  firstn (Z.to_nat (w_lo w)) mem ++ firstn n src
    ++ skipn (Z.to_nat (w_lo w) + n) mem.

(** ** encoding/binary, big endian *)

(** [binary.BigEndian.Uint16(b)]: [uint16(b[1]) | uint16(b[0])<<8]; it
    panics when [b] has fewer than two bytes. *)
Definition Uint16 (b : list byte) : M Z :=
  match b with
  | b0 :: b1 :: _ => ret (Z.lor (byte_to_Z b1) (Z.shiftl (byte_to_Z b0) 8))
  | _ => panic
  end.

(** [binary.BigEndian.PutUint16(b, v)] with [b] the window [w] of [mem]:
    [b[0] = byte(v >> 8); b[1] = byte(v)]; it panics when [b] has fewer than
    two bytes. *)
Definition PutUint16 (mem : list byte) (w : window) (v : Z) : M (list byte) :=
  if w_len w <? 2 then panic
  else ret (copy mem w [byte_of_Z (Z.shiftr v 8); byte_of_Z v]).

(** ** EthernetHeader *)

Definition EthernetHeader : Type := list byte.

(** [SwapSrcDst]: the three [copy] calls go through the local array [tmp]
    and write to the header in place; the result is the header afterwards. *)
Definition SwapSrcDst (o : EthernetHeader) : M EthernetHeader :=
  let tmp := repeat x00 6 in
  o06 <- sub (whole o) 0 6 ;;
  let tmp := copy tmp (whole tmp) (read o o06) in
  o06 <- sub (whole o) 0 6 ;;
  o612 <- sub (whole o) 6 12 ;;
  let o := copy o o06 (read o o612) in
  o612 <- sub (whole o) 6 12 ;;
  tmp06 <- sub (whole tmp) 0 6 ;;
  let o := copy o o612 (read tmp tmp06) in
  ret o.

Definition GetSrcAddress (o : EthernetHeader) : M (list byte) := slice o 6 12.

Definition GetDestAddress (o : EthernetHeader) : M (list byte) := slice o 0 6.

Definition GetNextProtocol (o : EthernetHeader) : M Z :=
  f <- slice o 12 14 ;; Uint16 f.

(** ** Errors *)

Inductive error : Type :=
  | ErrTooSmall                               (* "Ethernet packet too small" *)
  | ErrInvalidDstMAC (mac : list byte)        (* "invalid dst MAC: %v" *)
  | ErrInvalidSrcMAC (mac : list byte)        (* "invalid src MAC: %v" *)
  | ErrTypeLength (ty length : Z)
      (* "ethernet type %v not compatible with length value %v" *)
  | ErrInvalidLength (length : Z)             (* "invalid ethernet length %v" *)
  | ErrBuffer.                                (* an error of the buffer *)

(** ** The layer *)

(** [BaseLayer] is declared in another file of the package; the code builds
    it as [BaseLayer{data[:14], data[14:]}] and reads its [Payload]. *)
Record BaseLayer : Type := MkBaseLayer {
  Contents : list byte;
  Payload : list byte
}.

Record Ethernet : Type := MkEthernet {
  Base : BaseLayer;
  SrcMAC : list byte;
  DstMAC : list byte;
  EthernetType : Z;
  Length : Z
}.

Definition set_Payload (eth : Ethernet) (p : list byte) : Ethernet :=
  MkEthernet (MkBaseLayer (Contents (Base eth)) p)
    (SrcMAC eth) (DstMAC eth) (EthernetType eth) (Length eth).

Definition set_Length (eth : Ethernet) (l : Z) : Ethernet :=
  MkEthernet (Base eth) (SrcMAC eth) (DstMAC eth) (EthernetType eth) l.

Definition set_EthernetType (eth : Ethernet) (t : Z) : Ethernet :=
  MkEthernet (Base eth) (SrcMAC eth) (DstMAC eth) t (Length eth).

(** [gopacket.DecodeFeedback]: the interface through which a layer reports
    that the packet is shorter than it declares. *)
Class DecodeFeedback (D : Type) : Type := {
  SetTruncated : D -> D
}.

(** A packet builder that records the flag: once true it stays true. *)
Record truncation_flag : Type := MkFlag { truncated : bool }.

#[export] Instance truncation_flag_feedback : DecodeFeedback truncation_flag :=
  {| SetTruncated := fun _ => MkFlag true |}.

(** A feedback that counts the calls it receives. *)
#[export] Instance call_counter_feedback : DecodeFeedback nat :=
  {| SetTruncated := S |}.

Record SerializeOptions : Type := MkOptions {
  FixLengths : bool;
  ComputeChecksums : bool
}.

(** Modelled from the spec: the serialization buffer
    ([gopacket.SerializeBuffer], declared outside this file).  A growable
    byte buffer: [PrependBytes n] grows it at the front and [AppendBytes n]
    at the back, each returning a writable view of the [n] new bytes that
    the caller fills in; [Bytes] is the current contents, front to back.
    Bytes written earlier keep their content and order.  What the new bytes
    hold before the caller fills them in is not fixed: [spare] gives it.
    [n] is a Go [int]; the error result of the interface is produced for a
    negative [n] only. *)
Record SerializeBuffer : Type := MkBuffer {
  contents : list byte;
  spare : nat -> byte
}.

Definition Bytes (b : SerializeBuffer) : list byte := contents b.

Definition fresh (b : SerializeBuffer) (n : Z) : list byte :=
  map (spare b) (seq 0 (Z.to_nat n)).

Definition PrependBytes (b : SerializeBuffer) (n : Z)
  : (error + window) * SerializeBuffer :=
  if n <? 0 then (inl ErrBuffer, b)
  else (inr (Window 0 n), MkBuffer (fresh b n ++ contents b) (spare b)).

Definition AppendBytes (b : SerializeBuffer) (n : Z)
  : (error + window) * SerializeBuffer :=
  if n <? 0 then (inl ErrBuffer, b)
  else (inr (Window (len (contents b)) (len (contents b) + n)),
        MkBuffer (contents b ++ fresh b n) (spare b)).

(** A write through a view the buffer returned. *)
Definition fill (b : SerializeBuffer) (mem : list byte) : SerializeBuffer :=
  MkBuffer mem (spare b).

Section Layer.

(** The constant [EthernetTypeLLC] (type [EthernetType], converted from
    and to [uint16] by the code) and the zero block [lotsOfZeros] are
    declared in other files of the package: the value of the first and
    the size of the second are parameters. *)
Variable EthernetTypeLLC : Z.
Variable lotsOfZeros_len : nat.

Definition lotsOfZeros : list byte := repeat x00 lotsOfZeros_len.

Definition DecodeFromBytes {D : Type} `{DecodeFeedback D}
    (eth : Ethernet) (data : list byte) (df : D)
  : M (option error * Ethernet * D) :=
  if len data <? 14 then ret (Some ErrTooSmall, eth, df)
  else
    dst <- slice data 0 6 ;;
    src <- slice data 6 12 ;;
    ty <- (f <- slice data 12 14 ;; Uint16 f) ;;
    hdr <- slice_to data 14 ;;
    rest <- slice_from data 14 ;;
    let eth := MkEthernet (MkBaseLayer hdr rest) src dst ty 0 in
    if EthernetType eth <? 0x0600 then
      let eth := set_Length eth (uint16 (EthernetType eth)) in
      let eth := set_EthernetType eth EthernetTypeLLC in
      let cmp := len (Payload (Base eth)) - Length eth in
      if cmp <? 0 then ret (None, eth, SetTruncated df)
      else if cmp >? 0 then
        p <- slice_to (Payload (Base eth)) (len (Payload (Base eth)) - cmp) ;;
        ret (None, set_Payload eth p, df)
      else ret (None, eth, df)
    else ret (None, eth, df).

(** Lines 144-153 of [SerializeTo]: the padding to the minimum frame size. *)
Definition pad (eth : Ethernet) (b : SerializeBuffer)
  : M (option error * Ethernet * SerializeBuffer) :=
  let length := len (Bytes b) in
  if length <? 60 then
    match AppendBytes b (60 - length) with
    | (inl err, b) => ret (Some err, eth, b)
    | (inr padding, b) =>
        ret (None, eth, fill b (copy (contents b) padding lotsOfZeros))
    end
  else ret (None, eth, b).

Definition SerializeTo (eth : Ethernet) (b : SerializeBuffer)
    (opts : SerializeOptions)
  : M (option error * Ethernet * SerializeBuffer) :=
  if negb (len (DstMAC eth) =? 6) then
    ret (Some (ErrInvalidDstMAC (DstMAC eth)), eth, b)
  else if negb (len (SrcMAC eth) =? 6) then
    ret (Some (ErrInvalidSrcMAC (SrcMAC eth)), eth, b)
  else
    let payload := Bytes b in
    match PrependBytes b 14 with
    | (inl err, b) => ret (Some err, eth, b)
    | (inr bytes, b) =>
        let b := fill b (copy (contents b) bytes (DstMAC eth)) in
        bytes6 <- sub_from bytes 6 ;;
        let b := fill b (copy (contents b) bytes6 (SrcMAC eth)) in
        if negb (Length eth =? 0) || (EthernetType eth =? EthernetTypeLLC)
        then
          let eth :=
            if FixLengths opts then set_Length eth (uint16 (len payload))
            else eth in
          if negb (EthernetType eth =? EthernetTypeLLC) then
            ret (Some (ErrTypeLength (EthernetType eth) (Length eth)), eth, b)
          else if Length eth >? 0x0600 then
            ret (Some (ErrInvalidLength (Length eth)), eth, b)
          else
            bytes12 <- sub_from bytes 12 ;;
            mem <- PutUint16 (contents b) bytes12 (Length eth) ;;
            pad eth (fill b mem)
        else
          bytes12 <- sub_from bytes 12 ;;
          mem <- PutUint16 (contents b) bytes12 (uint16 (EthernetType eth)) ;;
          pad eth (fill b mem)
    end.

End Layer.

(** ** The frames of the examples *)

Definition mac_aa : list byte := repeat xaa 6.
Definition mac_bb : list byte := repeat xbb 6.

(** dst(6 x 0xAA) + src(6 x 0xBB) + [0x08, 0x00] + 46 zero bytes *)
Definition frame_ipv4 : list byte :=
  mac_aa ++ mac_bb ++ [x08; x00] ++ repeat x00 46.

(** dst + src + [0x00, 0x05] + 10 payload bytes *)
Definition frame_llc : list byte :=
  mac_aa ++ mac_bb ++ [x00; x05] ++ [x01; x02; x03; x04; x05; x06; x07; x08; x09; x0a].

(** dst + src + [0x00, 0x05] + 2 payload bytes: shorter than it declares *)
Definition frame_short : list byte :=
  mac_aa ++ mac_bb ++ [x00; x05] ++ [x01; x02].

Definition empty_layer : Ethernet := MkEthernet (MkBaseLayer [] []) [] [] 0 0.

Definition no_options : SerializeOptions := MkOptions false false.

Definition empty_buffer : SerializeBuffer := MkBuffer [] (fun _ => xff).

(** A buffer that holds two bytes. *)
Definition small_buffer : SerializeBuffer := MkBuffer [x01; x02] (fun _ => xff).

(** A layer in type mode. *)
Definition layer_ipv4 : Ethernet :=
  MkEthernet (MkBaseLayer [] []) mac_bb mac_aa 0x0800 0.

(** A layer with a type and a length. *)
Definition layer_ipv4_length : Ethernet :=
  MkEthernet (MkBaseLayer [] []) mac_bb mac_aa 0x0800 5.

(** A layer whose source address has 5 bytes. *)
Definition layer_short_mac : Ethernet :=
  MkEthernet (MkBaseLayer [] []) (repeat xbb 5) mac_aa 0x0800 0.

(** The 16-bit field of a frame, big endian, read from bytes 12 and 13. *)
Definition field16 (data : list byte) : Z :=
  256 * byte_to_Z (nth 12 data x00) + byte_to_Z (nth 13 data x00).

(** ** What serialization writes *)

(** Length mode: [eth.Length != 0 || eth.EthernetType == EthernetTypeLLC]. *)
Definition length_mode (EthernetTypeLLC : Z) (eth : Ethernet) : bool :=
  negb (Length eth =? 0) || (EthernetType eth =? EthernetTypeLLC).

(** The length the header is written with in length mode: recomputed from
    the bytes in the buffer under [FixLengths]. *)
Definition effective_length (eth : Ethernet) (b : SerializeBuffer)
    (opts : SerializeOptions) : Z :=
  if FixLengths opts then uint16 (len (Bytes b)) else Length eth.

(** The 14 header bytes on the wire, [v] being the value of the 16-bit
    field. *)
Definition wire_header (eth : Ethernet) (v : Z) : list byte :=
  DstMAC eth ++ SrcMAC eth ++ [byte_of_Z (Z.shiftr v 8); byte_of_Z v].

(** The header when the field has not been written: bytes 12 and 13 hold
    what the buffer handed out. *)
Definition partial_header (eth : Ethernet) (b : SerializeBuffer) : list byte :=
  DstMAC eth ++ SrcMAC eth ++ [spare b 12%nat; spare b 13%nat].

(** The bytes appended to a buffer of [n] bytes: zeros as far as the zero
    block of [zeros] bytes reaches, then what the buffer handed out. *)
Definition padding (zeros : nat) (b : SerializeBuffer) (n : Z) : list byte :=
  let k := Nat.min (Z.to_nat (60 - n)) zeros in
  repeat x00 k ++ skipn k (fresh b (60 - n)).

(** The buffer after a successful [SerializeTo]: the header, the bytes the
    buffer held, and the padding up to 60 bytes. *)
Definition framed (zeros : nat) (eth : Ethernet) (v : Z) (b : SerializeBuffer)
  : SerializeBuffer :=
  let mem := wire_header eth v ++ contents b in
  fill b (mem ++ padding zeros b (len mem)).

(** The layer of the failing serialization: length mode with the length
    [0x0600]. *)
Definition layer_0x0600 (EthernetTypeLLC : Z) : Ethernet :=
  MkEthernet (MkBaseLayer [] []) mac_bb mac_aa EthernetTypeLLC 0x0600.

(** ** The other operations of the header view *)

(** [EthernetBroadcast], the broadcast address. *)
Definition EthernetBroadcast : list byte := [xff; xff; xff; xff; xff; xff].

(** [SetSrcAddress]: [copy(o[6:12], d[:])]. *)
Definition SetSrcAddress (o : EthernetHeader) (d : list byte)
  : M EthernetHeader :=
  o612 <- sub (whole o) 6 12 ;;
  d' <- slice_from d 0 ;;
  ret (copy o o612 d').

(** [SetDestAddress]: [copy(o[0:6], d[:])]. *)
Definition SetDestAddress (o : EthernetHeader) (d : list byte)
  : M EthernetHeader :=
  o06 <- sub (whole o) 0 6 ;;
  d' <- slice_from d 0 ;;
  ret (copy o o06 d').

(** [SetBroadcast]: [copy(o[0:6], []byte{0xff, 0xff, 0xff, 0xff, 0xff, 0xff})]. *)
Definition SetBroadcast (o : EthernetHeader) : M EthernetHeader :=
  o06 <- sub (whole o) 0 6 ;;
  ret (copy o o06 [xff; xff; xff; xff; xff; xff]).

(** [bytes.Compare(a, b)]: the lexicographic comparison of two byte
    slices, [-1], [0] or [1]. *)
Fixpoint Compare (a b : list byte) : Z :=
  match a, b with
  | [], [] => 0
  | [], _ :: _ => -1
  | _ :: _, [] => 1
  | x :: a', y :: b' =>
      if byte_to_Z x <? byte_to_Z y then -1
      else if byte_to_Z y <? byte_to_Z x then 1
      else Compare a' b'
  end.

(** [IsBroadcast]: [bytes.Compare(o[0:6], EthernetBroadcast[0:6]) == 0]. *)
Definition IsBroadcast (o : EthernetHeader) : M bool :=
  o06 <- slice o 0 6 ;;
  bc <- slice EthernetBroadcast 0 6 ;;
  if Compare o06 bc =? 0 then ret true else ret false.

(** [IsMcast]: [o[0]&0x1 == 0x1]; the index expression panics on an empty
    header. *)
Definition IsMcast (o : EthernetHeader) : M bool :=
  match o with
  | [] => panic
  | o0 :: _ =>
      if Z.land (byte_to_Z o0) 0x1 =? 0x1 then ret true else ret false
  end.

(** ** The decoder of the layer *)

(** [gopacket.PacketBuilder], declared outside this file: the feedback of
    a decode pass together with the operations [decodeEthernet] calls.  The
    operations are those of the interface, whatever implements them;
    [NextDecoder] runs the decoder of the next layer, which may fail. *)
Class PacketBuilder (P : Type) : Type := {
  builder_feedback :: DecodeFeedback P;
  AddLayer : P -> Ethernet -> P;
  SetLinkLayer : P -> Ethernet -> P;
  NextDecoder : P -> Z -> M (option error * P)
}.

(** A builder that records what it is asked: the layers added, the link
    layer, the truncation flag and the types of the decoders requested. *)
Record recorder : Type := MkRecorder {
  rec_layers : list Ethernet;
  rec_link : option Ethernet;
  rec_truncated : bool;
  rec_next : list Z
}.

#[export] Instance recorder_feedback : DecodeFeedback recorder :=
  {| SetTruncated := fun p =>
       MkRecorder (rec_layers p) (rec_link p) true (rec_next p) |}.

#[export] Instance recorder_builder : PacketBuilder recorder :=
  {| builder_feedback := recorder_feedback;
     AddLayer := fun p eth =>
       MkRecorder (rec_layers p ++ [eth]) (rec_link p) (rec_truncated p)
         (rec_next p);
     SetLinkLayer := fun p eth =>
       MkRecorder (rec_layers p) (Some eth) (rec_truncated p) (rec_next p);
     NextDecoder := fun p t =>
       ret (None,
            MkRecorder (rec_layers p) (rec_link p) (rec_truncated p)
              (rec_next p ++ [t])) |}.

Definition new_recorder : recorder := MkRecorder [] None false [].

Section Decoder.

Variable EthernetTypeLLC : Z.

(** [decodeEthernet]; [&Ethernet{}] is the layer with all fields zero. *)
Definition decodeEthernet {P : Type} `{PacketBuilder P}
    (data : list byte) (p : P) : M (option error * P) :=
  let eth := MkEthernet (MkBaseLayer [] []) [] [] 0 0 in
  r <- DecodeFromBytes EthernetTypeLLC eth data p ;;
  match r with
  | (Some err, eth, p) => ret (Some err, p)
  | (None, eth, p) =>
      let p := AddLayer p eth in
      let p := SetLinkLayer p eth in
      NextDecoder p (EthernetType eth)
  end.

End Decoder.

(** ** More inputs for the examples *)

Definition mac_01 : list byte := [x01; x02; x03; x04; x05; x06].


(** A layer in length mode, its length not yet known. *)
Definition layer_llc : Ethernet :=
  MkEthernet (MkBaseLayer [] []) mac_bb mac_aa 0 0.

Definition fix_options : SerializeOptions := MkOptions true false.

(** A buffer that holds [65536 + 5] bytes. *)
Definition big_buffer : SerializeBuffer :=
  MkBuffer (repeat x00 (Z.to_nat 65541)) (fun _ => xff).

Ltac window_bounds :=
  unfold whole, w_len, len; cbn [w_lo w_hi]; rewrite ?length_app;
  cbn [length repeat]; lia.

(** Closed goals on the example frames. *)
Ltac by_computation :=
  vm_compute; solve [reflexivity | discriminate | intro; discriminate].

Ltac by_computations := repeat split; by_computation.

(** * Properties *)

(** ** Bytes *)

Lemma byte_to_Z_range (b : byte) : 0 <= byte_to_Z b < 256.
Proof.
  unfold byte_to_Z. pose proof (Byte.to_N_bounded b) as Hb. lia.
Qed.

Lemma byte_of_to_Z (b : byte) : byte_of_Z (byte_to_Z b) = b.
Proof.
  unfold byte_of_Z. rewrite Z.mod_small by apply byte_to_Z_range.
  unfold byte_to_Z. rewrite N2Z.id, Byte.of_to_N. reflexivity.
Qed.

Lemma byte_of_Z_mod (v : Z) : byte_of_Z (v mod 256) = byte_of_Z v.
Proof.
  unfold byte_of_Z. rewrite Z.mod_mod by lia. reflexivity.
Qed.

Lemma byte_of_Z_0 : byte_of_Z 0 = x00.
Proof. reflexivity. Qed.

(** The [|] of a byte and a byte shifted by 8 is a sum. *)
Lemma lor_shiftl_8 (hi lo : Z) :
  0 <= hi -> 0 <= lo < 256 -> Z.lor lo (Z.shiftl hi 8) = 256 * hi + lo.
Proof.
  intros Hhi Hlo.
  assert (Hland : Z.land lo (Z.shiftl hi 8) = 0).
  { apply Z.bits_inj'; intros n Hn.
    rewrite Z.land_spec, Z.bits_0.
    destruct (Z.ltb_spec n 8) as [Hlt | Hge].
    - rewrite Z.shiftl_spec_low by lia. apply andb_false_r.
    - replace (Z.testbit lo n) with false; [reflexivity | ].
      symmetry. destruct (Z.eq_dec lo 0) as [-> | Hne]; [apply Z.bits_0 | ].
      apply Z.bits_above_log2; [lia | ].
      apply Z.lt_le_trans with 8; [ | lia].
      apply Z.log2_lt_pow2; [lia | ]. change (2 ^ 8) with 256. lia. }
  pose proof (Z.add_lor_land lo (Z.shiftl hi 8)) as Hadd.
  rewrite Hland, Z.shiftl_mul_pow2 in Hadd by lia.
  change (2 ^ 8) with 256 in Hadd.
  rewrite Z.shiftl_mul_pow2 in * by lia. change (2 ^ 8) with 256 in *. lia.
Qed.

(** What [PutUint16] writes for a value that [Uint16] read. *)
Lemma put_of_read_hi (b0 b1 : byte) :
  byte_of_Z (Z.shiftr (256 * byte_to_Z b0 + byte_to_Z b1) 8) = b0.
Proof.
  pose proof (byte_to_Z_range b0). pose proof (byte_to_Z_range b1).
  rewrite Z.shiftr_div_pow2 by lia. change (2 ^ 8) with 256.
  replace ((256 * byte_to_Z b0 + byte_to_Z b1) / 256) with (byte_to_Z b0)
    by (apply Z.div_unique with (byte_to_Z b1); lia).
  apply byte_of_to_Z.
Qed.

Lemma put_of_read_lo (b0 b1 : byte) :
  byte_of_Z (256 * byte_to_Z b0 + byte_to_Z b1) = b1.
Proof.
  pose proof (byte_to_Z_range b0). pose proof (byte_to_Z_range b1).
  rewrite <- byte_of_Z_mod.
  replace ((256 * byte_to_Z b0 + byte_to_Z b1) mod 256) with (byte_to_Z b1)
    by (apply Z.mod_unique with (byte_to_Z b0); lia).
  apply byte_of_to_Z.
Qed.

Lemma Uint16_pair (b0 b1 : byte) (tl : list byte) :
  Uint16 (b0 :: b1 :: tl) = ret (256 * byte_to_Z b0 + byte_to_Z b1).
Proof.
  unfold Uint16. f_equal.
  apply lor_shiftl_8; pose proof (byte_to_Z_range b0);
    pose proof (byte_to_Z_range b1); lia.
Qed.

Lemma field16_range (data : list byte) : 0 <= field16 data <= 0xFFFF.
Proof.
  unfold field16.
  pose proof (byte_to_Z_range (nth 12 data x00)).
  pose proof (byte_to_Z_range (nth 13 data x00)). lia.
Qed.

(** ** Slices *)

Lemma len_nonneg {A : Type} (s : list A) : 0 <= len s.
Proof. unfold len. lia. Qed.

Lemma slice_in_range {A : Type} (s : list A) (lo hi : Z) :
  0 <= lo -> lo <= hi -> hi <= len s ->
  slice s lo hi = ret (firstn (Z.to_nat (hi - lo)) (skipn (Z.to_nat lo) s)).
Proof.
  intros H0 H1 H2. unfold slice.
  replace (0 <=? lo) with true by (symmetry; apply Z.leb_le; lia).
  replace (lo <=? hi) with true by (symmetry; apply Z.leb_le; lia).
  replace (hi <=? len s) with true by (symmetry; apply Z.leb_le; lia).
  reflexivity.
Qed.

Lemma sub_in_range (w : window) (a b : Z) :
  0 <= a -> a <= b -> b <= w_len w ->
  sub w a b = ret (Window (w_lo w + a) (w_lo w + b)).
Proof.
  intros H0 H1 H2. unfold sub.
  replace (0 <=? a) with true by (symmetry; apply Z.leb_le; lia).
  replace (a <=? b) with true by (symmetry; apply Z.leb_le; lia).
  replace (b <=? w_len w) with true by (symmetry; apply Z.leb_le; lia).
  reflexivity.
Qed.

Lemma slice_from_in_range {A : Type} (s : list A) (lo : Z) :
  0 <= lo -> lo <= len s -> slice_from s lo = ret (skipn (Z.to_nat lo) s).
Proof.
  intros H0 H1. unfold slice_from.
  rewrite slice_in_range by (lia || apply len_nonneg).
  f_equal. apply firstn_all2. rewrite length_skipn. unfold len. lia.
Qed.

Lemma slice_to_in_range {A : Type} (s : list A) (hi : Z) :
  0 <= hi -> hi <= len s -> slice_to s hi = ret (firstn (Z.to_nat hi) s).
Proof.
  intros H0 H1. unfold slice_to.
  rewrite slice_in_range by lia. rewrite Z.sub_0_r. reflexivity.
Qed.

Lemma firstn_beyond {A : Type} (s : list A) (n : Z) :
  len s <= n -> firstn (Z.to_nat n) s = s.
Proof.
  intros Hn. apply firstn_all2. unfold len in Hn. lia.
Qed.

Lemma firstn_length_app {A : Type} (p q : list A) :
  firstn (length p) (p ++ q) = p.
Proof.
  induction p as [ | a p IH]; cbn [length firstn app];
    [reflexivity | rewrite IH; reflexivity].
Qed.

Lemma skipn_length_app {A : Type} (p q : list A) (n : nat) :
  skipn (length p + n) (p ++ q) = skipn n q.
Proof.
  induction p as [ | a p IH]; cbn [length skipn app Nat.add];
    [reflexivity | apply IH].
Qed.

(** Reading the window that covers [x] in [p ++ x ++ s]. *)
Lemma read_window {A : Type} (p x s : list A) (w : window) :
  w_lo w = len p -> w_hi w = len p + len x -> read (p ++ x ++ s) w = x.
Proof.
  intros Hlo Hhi. unfold read, w_len. rewrite Hlo, Hhi. unfold len.
  replace (Z.to_nat (Z.of_nat (length p))) with (length p + 0)%nat by lia.
  rewrite skipn_length_app. cbn [skipn].
  replace (Z.to_nat (Z.of_nat (length p) + Z.of_nat (length x)
                     - Z.of_nat (length p))) with (length x) by lia.
  apply firstn_length_app.
Qed.

(** [copy] into a window that starts at [x] in [p ++ x ++ s], when the
    number of elements copied is the length of [x]. *)
Lemma copy_window {A : Type} (p x s y : list A) (w : window) :
  w_lo w = len p ->
  length x = Nat.min (Z.to_nat (w_len w)) (length y) ->
  copy (p ++ x ++ s) w y = p ++ firstn (length x) y ++ s.
Proof.
  intros Hlo Hn. unfold copy. rewrite <- Hn, Hlo. unfold len.
  rewrite Nat2Z.id, firstn_length_app, skipn_length_app.
  replace (length x) with (length x + 0)%nat at 2 by lia.
  rewrite skipn_length_app. reflexivity.
Qed.

(** A buffer of at least 14 bytes is its 14 header bytes and the rest. *)
Lemma header_14 (data : list byte) :
  14 <= len data ->
  exists d0 d1 d2 d3 d4 d5 s0 s1 s2 s3 s4 s5 t0 t1 rest,
    data = d0 :: d1 :: d2 :: d3 :: d4 :: d5
           :: s0 :: s1 :: s2 :: s3 :: s4 :: s5 :: t0 :: t1 :: rest.
Proof.
  unfold len. intros H.
  do 14 (destruct data as [ | ? data]; [simpl in H; lia | ]).
  repeat eexists.
Qed.

(** ** Decoding *)

Section Decoding.

Variable EthernetTypeLLC : Z.
Context {D : Type} `{DecodeFeedback D}.

(** What [DecodeFromBytes] computes on a buffer that holds a header. *)
Lemma DecodeFromBytes_header (eth : Ethernet) (data : list byte) (df : D) :
  14 <= len data ->
  DecodeFromBytes EthernetTypeLLC eth data df =
  let f := field16 data in
  let rest := skipn 14 data in
  if f <? 0x0600 then
    ret (None,
         MkEthernet (MkBaseLayer (firstn 14 data) (firstn (Z.to_nat f) rest))
           (firstn 6 (skipn 6 data)) (firstn 6 data) EthernetTypeLLC f,
         if len rest <? f then SetTruncated df else df)
  else
    ret (None,
         MkEthernet (MkBaseLayer (firstn 14 data) rest)
           (firstn 6 (skipn 6 data)) (firstn 6 data) f 0,
         df).
Proof.
  intros Hlen. unfold DecodeFromBytes.
  replace (len data <? 14) with false by (symmetry; apply Z.ltb_ge; lia).
  rewrite slice_to_in_range, slice_from_in_range by lia.
  rewrite !slice_in_range by lia.
  pose proof (field16_range data) as Hf. unfold field16 in *.
  destruct (header_14 data Hlen)
    as (d0 & d1 & d2 & d3 & d4 & d5 & s0 & s1 & s2 & s3 & s4 & s5
        & t0 & t1 & rest & ->).
  clear Hlen.
  change (Z.to_nat (6 - 0)) with 6%nat. change (Z.to_nat (12 - 6)) with 6%nat.
  change (Z.to_nat (14 - 12)) with 2%nat. change (Z.to_nat 0) with 0%nat.
  change (Z.to_nat 6) with 6%nat. change (Z.to_nat 12) with 12%nat.
  change (Z.to_nat 14) with 14%nat.
  cbn [firstn skipn nth] in *. cbn [bind ret].
  rewrite Uint16_pair. cbn [bind ret].
  set (f := 256 * byte_to_Z t0 + byte_to_Z t1) in *.
  cbn [EthernetType Length Base Payload set_Length set_EthernetType
       set_Payload Contents SrcMAC DstMAC].
  destruct (Z.ltb_spec f 0x0600) as [Hlt | Hge]; [ | reflexivity].
  unfold uint16. rewrite (Z.mod_small f) by lia.
  destruct (Z.ltb_spec (len rest - f) 0) as [Hneg | Hpos].
  - replace (len rest <? f) with true by (symmetry; apply Z.ltb_lt; lia).
    rewrite firstn_beyond by lia. reflexivity.
  - replace (len rest <? f) with false by (symmetry; apply Z.ltb_ge; lia).
    destruct (Z.gtb_spec (len rest - f) 0) as [Hgt | Hle].
    + rewrite slice_to_in_range by lia. cbn [bind ret].
      replace (len rest - (len rest - f)) with f by lia. reflexivity.
    + rewrite firstn_beyond by lia. reflexivity.
Qed.

(** [field16] is the field as the code reads it. *)
Lemma GetNextProtocol_field16 (data : list byte) :
  14 <= len data -> GetNextProtocol data = ret (field16 data).
Proof.
  intros Hlen. unfold GetNextProtocol, field16.
  rewrite slice_in_range by lia.
  destruct (header_14 data Hlen)
    as (d0 & d1 & d2 & d3 & d4 & d5 & s0 & s1 & s2 & s3 & s4 & s5
        & t0 & t1 & rest & ->).
  change (Z.to_nat (14 - 12)) with 2%nat. change (Z.to_nat 12) with 12%nat.
  cbn [firstn skipn nth bind ret]. apply Uint16_pair.
Qed.

(** [DecodeFromBytes] never panics: every slice expression it evaluates
    is within the buffer. *)
Lemma DecodeFromBytes_no_panic (eth : Ethernet) (data : list byte) (df : D) :
  exists r, DecodeFromBytes EthernetTypeLLC eth data df = ret r.
Proof.
  destruct (Z.lt_ge_cases (len data) 14) as [Hshort | Hlen].
  - unfold DecodeFromBytes.
    replace (len data <? 14) with true by (symmetry; apply Z.ltb_lt; lia).
    eexists; reflexivity.
  - rewrite DecodeFromBytes_header by assumption. cbv zeta.
    destruct (field16 data <? 0x0600); eexists; reflexivity.
Qed.

(** C1. On a buffer of at least 14 bytes [DecodeFromBytes] succeeds.  A
    field in [0x0600, 0xFFFF] becomes [EthernetType], with [Length = 0]
    and the payload all bytes after the header; a field below [0x0600]
    becomes [Length], with [EthernetType = EthernetTypeLLC] and the
    payload the bytes after the header, cut to at most [Length].  In both
    cases [DstMAC] is bytes 0:6, [SrcMAC] bytes 6:12 and the header the
    first 14 bytes. *)
Theorem decode_fields (eth : Ethernet) (data : list byte) (df : D) :
  14 <= len data ->
  exists eth' df',
    DecodeFromBytes EthernetTypeLLC eth data df = ret (None, eth', df') /\
    (0x0600 <= field16 data <= 0xFFFF ->
       EthernetType eth' = field16 data /\ Length eth' = 0 /\
       Payload (Base eth') = skipn 14 data) /\
    (0 <= field16 data < 0x0600 ->
       Length eth' = field16 data /\ EthernetType eth' = EthernetTypeLLC /\
       Payload (Base eth')
       = firstn (Z.to_nat (field16 data)) (skipn 14 data)) /\
    DstMAC eth' = firstn 6 data /\
    SrcMAC eth' = firstn 6 (skipn 6 data) /\
    Contents (Base eth') = firstn 14 data.
Proof.
  intros Hlen. rewrite DecodeFromBytes_header by assumption. cbv zeta.
  destruct (Z.ltb_spec (field16 data) 0x0600) as [Hlt | Hge];
    eexists; eexists; (split; [reflexivity | ]); cbn;
    repeat split; intros; try reflexivity; lia.
Qed.

(** C3. On a buffer of at most 13 bytes [DecodeFromBytes] returns the
    too-short error and leaves the layer and the feedback as they were.
    It does not panic, so it reads no byte outside the buffer, and the
    result is the same for every such buffer: no byte is read at all. *)
Theorem decode_too_short (eth : Ethernet) (data : list byte) (df : D) :
  len data <= 13 ->
  DecodeFromBytes EthernetTypeLLC eth data df = ret (Some ErrTooSmall, eth, df)
  /\ forall data' : list byte,
       len data' <= 13 ->
       DecodeFromBytes EthernetTypeLLC eth data' df
       = DecodeFromBytes EthernetTypeLLC eth data df.
Proof.
  assert (Hshort : forall d : list byte,
             len d <= 13 ->
             DecodeFromBytes EthernetTypeLLC eth d df
             = ret (Some ErrTooSmall, eth, df)).
  { intros d Hd. unfold DecodeFromBytes.
    replace (len d <? 14) with true by (symmetry; apply Z.ltb_lt; lia).
    reflexivity. }
  intros Hlen. split; [apply Hshort; assumption | ].
  intros data' Hlen'. rewrite !Hshort by assumption. reflexivity.
Qed.

(** C4. A length field larger than the number of bytes after the header:
    [DecodeFromBytes] succeeds, calls [SetTruncated] (once) and leaves
    all bytes after the header as the payload. *)
Theorem decode_truncated (eth : Ethernet) (data : list byte) (df : D) :
  14 <= len data ->
  field16 data < 0x0600 ->
  len (skipn 14 data) < field16 data ->
  exists eth',
    DecodeFromBytes EthernetTypeLLC eth data df
    = ret (None, eth', SetTruncated df) /\
    Payload (Base eth') = skipn 14 data /\
    Length eth' = field16 data.
Proof.
  intros Hlen Hf Hshort. rewrite DecodeFromBytes_header by assumption.
  cbv zeta.
  replace (field16 data <? 0x0600) with true
    by (symmetry; apply Z.ltb_lt; lia).
  replace (len (skipn 14 data) <? field16 data) with true
    by (symmetry; apply Z.ltb_lt; lia).
  eexists. split; [reflexivity | ]. cbn [Payload Base Length].
  split; [ | reflexivity]. apply firstn_beyond. lia.
Qed.

(** C5. A length field smaller than the number of bytes after the header:
    [DecodeFromBytes] succeeds, the payload is the first [Length] bytes
    after the header, and the feedback is returned as it was given, for
    every implementation of the feedback: [SetTruncated] is not called. *)
Theorem decode_trimmed (eth : Ethernet) (data : list byte) (df : D) :
  14 <= len data ->
  field16 data < 0x0600 ->
  field16 data < len (skipn 14 data) ->
  exists eth',
    DecodeFromBytes EthernetTypeLLC eth data df = ret (None, eth', df) /\
    Payload (Base eth') = firstn (Z.to_nat (field16 data)) (skipn 14 data) /\
    len (Payload (Base eth')) = field16 data.
Proof.
  intros Hlen Hf Hlong. rewrite DecodeFromBytes_header by assumption.
  cbv zeta.
  replace (field16 data <? 0x0600) with true
    by (symmetry; apply Z.ltb_lt; lia).
  replace (len (skipn 14 data) <? field16 data) with false
    by (symmetry; apply Z.ltb_ge; lia).
  eexists. split; [reflexivity | ]. cbn [Payload Base Length].
  split; [reflexivity | ].
  pose proof (field16_range data) as Hr.
  unfold len in *. rewrite length_firstn. lia.
Qed.

End Decoding.

(** ** The header view *)

(** A header of at least 12 bytes is two 6-byte blocks and the rest. *)
Lemma header_blocks (o : EthernetHeader) :
  12 <= len o ->
  o = firstn 6 o ++ firstn 6 (skipn 6 o) ++ skipn 12 o
  /\ length (firstn 6 o) = 6%nat
  /\ length (firstn 6 (skipn 6 o)) = 6%nat.
Proof.
  unfold len. intros Hlen. split; [ | split].
  - replace (skipn 12 o) with (skipn 6 (skipn 6 o))
      by (rewrite skipn_skipn; reflexivity).
    rewrite !firstn_skipn. reflexivity.
  - rewrite length_firstn. lia.
  - rewrite length_firstn, length_skipn. lia.
Qed.

Lemma blocks_fst {A : Type} (a q : list A) :
  length a = 6%nat -> firstn 6 (a ++ q) = a.
Proof. intros <-. apply firstn_length_app. Qed.

Lemma blocks_snd {A : Type} (a b r : list A) :
  length a = 6%nat -> length b = 6%nat -> firstn 6 (skipn 6 (a ++ b ++ r)) = b.
Proof.
  intros Ha Hb. replace 6%nat with (length a + 0)%nat at 2 by lia.
  rewrite skipn_length_app. cbn [skipn]. apply blocks_fst; assumption.
Qed.

Lemma blocks_rest {A : Type} (a b r : list A) :
  length a = 6%nat -> length b = 6%nat -> skipn 12 (a ++ b ++ r) = r.
Proof.
  intros Ha Hb. replace 12%nat with (length a + 6)%nat by lia.
  rewrite skipn_length_app.
  replace 6%nat with (length b + 0)%nat by lia.
  rewrite skipn_length_app. reflexivity.
Qed.

(** [SwapSrcDst] on two 6-byte blocks followed by anything. *)
Lemma SwapSrcDst_app (a b r : list byte) :
  length a = 6%nat -> length b = 6%nat ->
  SwapSrcDst (a ++ b ++ r) = ret (b ++ a ++ r).
Proof.
  intros Ha Hb. unfold SwapSrcDst. cbv zeta.
  rewrite (sub_in_range (whole (a ++ b ++ r)) 0 6) by window_bounds.
  rewrite (sub_in_range (whole (a ++ b ++ r)) 6 12) by window_bounds.
  cbn [bind ret]. cbn [whole w_lo].
  assert (Hdst : read (a ++ b ++ r) (Window (0 + 0) (0 + 6)) = a).
  { apply (read_window [] a (b ++ r)); cbn [w_lo w_hi]; unfold len;
      cbn [length]; lia. }
  assert (Hsrc : read (a ++ b ++ r) (Window (0 + 6) (0 + 12)) = b).
  { apply (read_window a b r); cbn [w_lo w_hi]; unfold len; lia. }
  rewrite Hdst, Hsrc.
  assert (Htmp : copy (repeat x00 6) (whole (repeat x00 6)) a = a).
  { rewrite <- (app_nil_r (repeat x00 6)) at 1.
    rewrite (copy_window [] (repeat x00 6) [] a); cbn [w_lo app whole];
      [ | reflexivity | rewrite Ha; reflexivity ].
    rewrite app_nil_r. apply firstn_all2. rewrite Ha. cbn [repeat length]. lia. }
  rewrite Htmp.
  assert (Hfst : copy (a ++ b ++ r) (Window (0 + 0) (0 + 6)) b = b ++ b ++ r).
  { rewrite (copy_window [] a (b ++ r) b); cbn [w_lo app];
      [ | reflexivity | rewrite Ha, Hb; reflexivity ].
    rewrite Ha, <- Hb, firstn_all. reflexivity. }
  rewrite Hfst.
  rewrite (sub_in_range (whole (b ++ b ++ r)) 6 12) by window_bounds.
  rewrite (sub_in_range (whole a) 0 6) by window_bounds.
  cbn [bind ret]. cbn [whole w_lo].
  assert (Htmp06 : read a (Window (0 + 0) (0 + 6)) = a).
  { rewrite <- (app_nil_r a) at 1.
    apply (read_window [] a []); cbn [w_lo w_hi]; unfold len;
      cbn [length]; lia. }
  rewrite Htmp06.
  rewrite (copy_window b b r a); cbn [w_lo];
    [ | unfold len; lia | rewrite Ha, Hb; reflexivity ].
  rewrite Hb, <- Ha, firstn_all. reflexivity.
Qed.

(** C10. On a header view of at least 12 bytes, [SwapSrcDst] applied
    twice gives the header back; after one application [GetSrcAddress] is
    the previous destination address, [GetDestAddress] the previous source
    address, and the bytes from index 12 on are unchanged. *)
Theorem swap_src_dst (o : EthernetHeader) :
  12 <= len o ->
  exists o' : EthernetHeader,
    SwapSrcDst o = ret o' /\
    SwapSrcDst o' = ret o /\
    GetDestAddress o = ret (firstn 6 o) /\
    GetSrcAddress o = ret (firstn 6 (skipn 6 o)) /\
    GetSrcAddress o' = GetDestAddress o /\
    GetDestAddress o' = GetSrcAddress o /\
    skipn 12 o' = skipn 12 o /\
    len o' = len o.
Proof.
  intros Hlen. destruct (header_blocks o Hlen) as (Ho & Ha & Hb).
  unfold GetSrcAddress, GetDestAddress.
  rewrite !(slice_in_range o) by lia.
  change (Z.to_nat (6 - 0)) with 6%nat. change (Z.to_nat (12 - 6)) with 6%nat.
  change (Z.to_nat 0) with 0%nat. change (Z.to_nat 6) with 6%nat.
  change (skipn 0 o) with o.
  set (a := firstn 6 o) in *. set (b := firstn 6 (skipn 6 o)) in *.
  set (r := skipn 12 o) in *. clearbody a b r.
  assert (Hlen' : len (b ++ a ++ r) = len o).
  { rewrite Ho. unfold len. rewrite !length_app. lia. }
  exists (b ++ a ++ r). repeat split.
  - rewrite Ho at 1. apply SwapSrcDst_app; assumption.
  - rewrite Ho. apply SwapSrcDst_app; assumption.
  - rewrite slice_in_range by lia.
    change (Z.to_nat (12 - 6)) with 6%nat. change (Z.to_nat 6) with 6%nat.
    f_equal. apply blocks_snd; assumption.
  - rewrite slice_in_range by lia.
    change (Z.to_nat (6 - 0)) with 6%nat. change (Z.to_nat 0) with 0%nat.
    cbn [skipn]. f_equal. apply blocks_fst; assumption.
  - apply blocks_rest; assumption.
  - assumption.
Qed.

(** ** Serialization *)

Lemma mac_6 (m : list byte) :
  len m = 6 -> exists a0 a1 a2 a3 a4 a5, m = [a0; a1; a2; a3; a4; a5].
Proof.
  unfold len. intros H.
  do 6 (destruct m as [ | ? m]; [simpl in H; lia | ]).
  destruct m; [ | simpl in H; lia]. repeat eexists.
Qed.

Lemma length_fresh (b : SerializeBuffer) (n : Z) :
  length (fresh b n) = Z.to_nat n.
Proof. unfold fresh. rewrite length_map, length_seq. reflexivity. Qed.

Lemma firstn_repeat_le {A : Type} (a : A) (k n : nat) :
  (k <= n)%nat -> firstn k (repeat a n) = repeat a k.
Proof.
  revert n. induction k as [ | k IH]; intros n Hk; [reflexivity | ].
  destruct n as [ | n]; [lia | ].
  cbn [repeat firstn]. rewrite IH by lia. reflexivity.
Qed.

Lemma length_padding (zeros : nat) (b : SerializeBuffer) (n : Z) :
  length (padding zeros b n) = Z.to_nat (60 - n).
Proof.
  unfold padding. cbv zeta.
  rewrite length_app, repeat_length, length_skipn, length_fresh. lia.
Qed.

(** With a zero block of at least as many bytes, the padding is zeros. *)
Lemma padding_zeros (zeros : nat) (b : SerializeBuffer) (n : Z) :
  (Z.to_nat (60 - n) <= zeros)%nat ->
  padding zeros b n = repeat x00 (Z.to_nat (60 - n)).
Proof.
  intros Hz. unfold padding. cbv zeta.
  rewrite Nat.min_l by assumption.
  rewrite skipn_all2 by (rewrite length_fresh; lia).
  apply app_nil_r.
Qed.

Section Serialization.

Variable EthernetTypeLLC : Z.
Variable lotsOfZeros_len : nat.

(** The padding step never fails. *)
Lemma pad_appends (eth : Ethernet) (b : SerializeBuffer) :
  pad lotsOfZeros_len eth b
  = ret (None, eth,
         fill b (contents b ++ padding lotsOfZeros_len b (len (contents b)))).
Proof.
  unfold pad, Bytes, padding. cbv zeta.
  set (n := len (contents b)).
  destruct (Z.ltb_spec n 60) as [Hlt | Hge].
  - unfold AppendBytes. fold n.
    replace (60 - n <? 0) with false by (symmetry; apply Z.ltb_ge; lia).
    unfold fill. cbn [contents spare]. do 3 f_equal.
    set (k := Nat.min (Z.to_nat (60 - n)) lotsOfZeros_len).
    rewrite <- (firstn_skipn k (fresh b (60 - n))) at 1.
    rewrite copy_window; cbn [w_lo]; [ | reflexivity | ].
    + f_equal. f_equal.
      rewrite length_firstn, length_fresh.
      replace (Nat.min k (Z.to_nat (60 - n))) with k by lia.
      unfold lotsOfZeros. apply firstn_repeat_le. lia.
    + rewrite length_firstn, length_fresh. unfold w_len, lotsOfZeros.
      cbn [w_lo w_hi]. rewrite repeat_length. lia.
  - replace (Z.to_nat (60 - n)) with 0%nat by lia.
    cbn [Nat.min repeat skipn app]. unfold fresh.
    replace (Z.to_nat (60 - n)) with 0%nat by lia. cbn [seq map].
    rewrite app_nil_r. destruct b; reflexivity.
Qed.

(** The buffer once the header is prepended and both addresses are
    written: bytes 12 and 13 still hold what the buffer handed out. *)
Lemma prepend_addresses (b : SerializeBuffer) (dst src : list byte) :
  len dst = 6 -> len src = 6 ->
  copy (copy (fresh b 14 ++ contents b) (Window 0 14) dst) (Window 6 14) src
  = dst ++ src ++ [spare b 12%nat; spare b 13%nat] ++ contents b.
Proof.
  intros Hd Hs.
  destruct (mac_6 dst Hd) as (d0 & d1 & d2 & d3 & d4 & d5 & ->).
  destruct (mac_6 src Hs) as (s0 & s1 & s2 & s3 & s4 & s5 & ->).
  reflexivity.
Qed.

Lemma put_field (dst src old : list byte) (x y : byte) (v : Z) :
  len dst = 6 -> len src = 6 ->
  PutUint16 (dst ++ src ++ [x; y] ++ old) (Window 12 14) v
  = ret (dst ++ src ++ [byte_of_Z (Z.shiftr v 8); byte_of_Z v] ++ old).
Proof.
  intros Hd Hs.
  destruct (mac_6 dst Hd) as (d0 & d1 & d2 & d3 & d4 & d5 & ->).
  destruct (mac_6 src Hs) as (s0 & s1 & s2 & s3 & s4 & s5 & ->).
  reflexivity.
Qed.

Lemma len_wire_header (eth : Ethernet) (v : Z) :
  len (DstMAC eth) = 6 -> len (SrcMAC eth) = 6 ->
  len (wire_header eth v) = 14.
Proof.
  unfold wire_header, len. intros Hd Hs.
  rewrite !length_app. cbn [length]. lia.
Qed.

(** [SerializeTo] on a layer with two 6-byte addresses. *)
Lemma SerializeTo_header (eth : Ethernet) (b : SerializeBuffer)
      (opts : SerializeOptions) :
  len (DstMAC eth) = 6 -> len (SrcMAC eth) = 6 ->
  SerializeTo EthernetTypeLLC lotsOfZeros_len eth b opts
  = if length_mode EthernetTypeLLC eth then
      let eth' :=
        if FixLengths opts then set_Length eth (uint16 (len (Bytes b)))
        else eth in
      if negb (EthernetType eth =? EthernetTypeLLC) then
        ret (Some (ErrTypeLength (EthernetType eth) (Length eth')), eth',
             fill b (partial_header eth b ++ contents b))
      else if Length eth' >? 0x0600 then
        ret (Some (ErrInvalidLength (Length eth')), eth',
             fill b (partial_header eth b ++ contents b))
      else ret (None, eth', framed lotsOfZeros_len eth (Length eth') b)
    else
      ret (None, eth,
           framed lotsOfZeros_len eth (uint16 (EthernetType eth)) b).
Proof.
  intros Hd Hs. unfold SerializeTo, length_mode.
  rewrite Hd, Hs. change (negb (6 =? 6)) with false. cbv iota.
  unfold PrependBytes. change (14 <? 0) with false. cbv iota.
  change (sub_from (Window 0 14) 6) with (ret (Window 6 14)).
  change (sub_from (Window 0 14) 12) with (ret (Window 12 14)).
  cbn [bind ret fill contents spare].
  rewrite (prepend_addresses b _ _ Hd Hs).
  assert (Hpad : forall e v,
             mem <- PutUint16
                      (DstMAC eth ++ SrcMAC eth
                       ++ [spare b 12%nat; spare b 13%nat] ++ contents b)
                      (Window 12 14) v ;;
             pad lotsOfZeros_len e (MkBuffer mem (spare b))
             = ret (None, e, framed lotsOfZeros_len eth v b)).
  { intros e v. rewrite (put_field _ _ _ _ _ v Hd Hs).
    cbn [bind ret]. rewrite pad_appends. cbn [contents].
    unfold framed, fill, wire_header, padding, fresh. cbn [spare contents].
    rewrite <- !app_assoc. reflexivity. }
  unfold partial_header. rewrite <- !app_assoc.
  destruct (negb (Length eth =? 0) || (EthernetType eth =? EthernetTypeLLC));
    [ | apply Hpad].
  destruct (FixLengths opts); cbn [EthernetType set_Length Length];
    destruct (negb (EthernetType eth =? EthernetTypeLLC)); try reflexivity.
  - destruct (uint16 (len (Bytes b)) >? 0x0600); [reflexivity | ].
    apply Hpad.
  - destruct (Length eth >? 0x0600); [reflexivity | ].
    apply Hpad.
Qed.

(** [SerializeTo] never panics, and the buffer never makes it fail. *)
Lemma SerializeTo_no_panic (eth : Ethernet) (b : SerializeBuffer)
      (opts : SerializeOptions) :
  exists r eth' b',
    SerializeTo EthernetTypeLLC lotsOfZeros_len eth b opts = ret (r, eth', b')
    /\ r <> Some ErrBuffer.
Proof.
  destruct (Z.eq_dec (len (DstMAC eth)) 6) as [Hd | Hd].
  - destruct (Z.eq_dec (len (SrcMAC eth)) 6) as [Hs | Hs].
    + rewrite SerializeTo_header by assumption.
      destruct (length_mode EthernetTypeLLC eth); cbv zeta.
      * destruct (negb (EthernetType eth =? EthernetTypeLLC)).
        -- do 3 eexists. split; [reflexivity | discriminate].
        -- destruct (Length _ >? 0x0600); do 3 eexists;
             (split; [reflexivity | discriminate]).
      * do 3 eexists. split; [reflexivity | discriminate].
    + unfold SerializeTo.
      replace (len (DstMAC eth) =? 6) with true
        by (symmetry; apply Z.eqb_eq; assumption).
      replace (len (SrcMAC eth) =? 6) with false
        by (symmetry; apply Z.eqb_neq; assumption).
      cbn [negb]. do 3 eexists. split; [reflexivity | discriminate].
  - unfold SerializeTo.
    replace (len (DstMAC eth) =? 6) with false
      by (symmetry; apply Z.eqb_neq; assumption).
    cbn [negb]. do 3 eexists. split; [reflexivity | discriminate].
Qed.

(** The header written for a decoded layer is the header it was decoded
    from. *)
Lemma wire_header_decoded (data : list byte) (base : BaseLayer) (ty ln : Z) :
  14 <= len data ->
  wire_header
    (MkEthernet base (firstn 6 (skipn 6 data)) (firstn 6 data) ty ln)
    (field16 data)
  = firstn 14 data.
Proof.
  intros Hlen. unfold wire_header, field16. cbn [DstMAC SrcMAC].
  destruct (header_14 data Hlen)
    as (d0 & d1 & d2 & d3 & d4 & d5 & s0 & s1 & s2 & s3 & s4 & s5
        & t0 & t1 & rest & ->).
  cbn [firstn skipn nth app].
  rewrite put_of_read_hi, put_of_read_lo. reflexivity.
Qed.

Lemma len_decoded_addresses (data : list byte) :
  14 <= len data ->
  len (firstn 6 data) = 6 /\ len (firstn 6 (skipn 6 data)) = 6.
Proof.
  unfold len. intros Hlen.
  rewrite !length_firstn, length_skipn. lia.
Qed.

Lemma firstn_framed (eth : Ethernet) (v : Z) (b : SerializeBuffer) :
  len (DstMAC eth) = 6 -> len (SrcMAC eth) = 6 ->
  firstn 14 (Bytes (framed lotsOfZeros_len eth v b)) = wire_header eth v.
Proof.
  intros Hd Hs. pose proof (len_wire_header eth v Hd Hs) as Hl.
  unfold framed, Bytes, fill. cbn [contents]. rewrite <- app_assoc.
  replace 14%nat with (length (wire_header eth v)) by (unfold len in Hl; lia).
  apply firstn_length_app.
Qed.

Context {D : Type} `{DecodeFeedback D}.

(** C2. A buffer of at least 14 bytes is decoded, and the layer obtained
    is serialized with [FixLengths] off into any buffer: both succeed and
    the first 14 bytes of the serialization buffer are the 14 header bytes
    of the input.  [EthernetTypeLLC] is below [0x0600], so that it is not
    the type of a frame that carries a type. *)
Theorem decode_serialize_roundtrip (eth : Ethernet) (data : list byte)
    (df : D) (b : SerializeBuffer) (opts : SerializeOptions) :
  14 <= len data ->
  EthernetTypeLLC < 0x0600 ->
  FixLengths opts = false ->
  exists (eth1 : Ethernet) (df1 : D) (b2 : SerializeBuffer),
    DecodeFromBytes EthernetTypeLLC eth data df = ret (None, eth1, df1) /\
    SerializeTo EthernetTypeLLC lotsOfZeros_len eth1 b opts
    = ret (None, eth1, b2) /\
    firstn 14 (Bytes b2) = firstn 14 data.
Proof.
  intros Hlen Hllc Hfix.
  destruct (len_decoded_addresses data Hlen) as [Hd Hs].
  pose proof (field16_range data) as Hf.
  rewrite DecodeFromBytes_header by assumption. cbv zeta.
  destruct (Z.ltb_spec (field16 data) 0x0600) as [Hlt | Hge];
    eexists; eexists; eexists; (split; [reflexivity | ]);
    rewrite SerializeTo_header by assumption;
    unfold length_mode; cbn [Length EthernetType]; rewrite Hfix.
  - rewrite Z.eqb_refl, orb_true_r. cbn [negb Length].
    replace (field16 data >? 0x0600) with false
      by (symmetry; rewrite Z.gtb_ltb; apply Z.ltb_ge; lia).
    split; [reflexivity | ].
    rewrite firstn_framed by assumption.
    apply wire_header_decoded; assumption.
  - replace (field16 data =? EthernetTypeLLC) with false
      by (symmetry; apply Z.eqb_neq; lia).
    change (negb (0 =? 0) || false) with false. cbv iota.
    split; [reflexivity | ].
    rewrite firstn_framed by assumption.
    unfold uint16. rewrite Z.mod_small by lia.
    apply wire_header_decoded; assumption.
Qed.

(** C6, at the length [0x0600]: in length mode with
    [EthernetType = EthernetTypeLLC] and [FixLengths] off, [SerializeTo]
    succeeds on the length [0x0600], which is not below [0x0600]; it writes
    [0x06 0x00] into bytes 12:14, a field that reads back as the type
    [0x0600]. *)
Theorem serialize_length_0x0600 (b : SerializeBuffer) :
  length_mode EthernetTypeLLC (layer_0x0600 EthernetTypeLLC) = true /\
  ~ Length (layer_0x0600 EthernetTypeLLC) < 0x0600 /\
  exists b' : SerializeBuffer,
    SerializeTo EthernetTypeLLC lotsOfZeros_len
      (layer_0x0600 EthernetTypeLLC) b no_options
    = ret (None, layer_0x0600 EthernetTypeLLC, b') /\
    slice (Bytes b') 12 14 = ret [x06; x00] /\
    GetNextProtocol (Bytes b') = ret 0x0600.
Proof.
  split; [ | split].
  - unfold length_mode, layer_0x0600. cbn [Length EthernetType].
    reflexivity.
  - cbn [layer_0x0600 Length]. lia.
  - eexists. rewrite SerializeTo_header by reflexivity.
    unfold length_mode, layer_0x0600, no_options.
    cbn [Length EthernetType FixLengths].
    rewrite Z.eqb_refl.
    change (negb (1536 =? 0) || true) with true.
    change (1536 >? 1536) with false. cbn [negb].
    split; [reflexivity | ].
    unfold GetNextProtocol.
    assert (Hfield : slice
                       (Bytes (framed lotsOfZeros_len
                                 (MkEthernet (MkBaseLayer [] []) mac_bb
                                    mac_aa EthernetTypeLLC 1536) 1536 b))
                       12 14 = ret [x06; x00]).
    { rewrite slice_in_range.
      - reflexivity.
      - lia.
      - lia.
      - unfold Bytes, framed, fill, len. cbn [contents].
        rewrite !length_app. cbn [wire_header length DstMAC SrcMAC mac_aa
          mac_bb repeat app]. lia. }
    rewrite Hfield. split; reflexivity.
Qed.

(** C7. A layer with a nonzero [Length] whose [EthernetType] is not
    [EthernetTypeLLC]: [SerializeTo] returns an error, whatever the buffer
    and the options; with two 6-byte addresses it is the error of the
    type not matching the length. *)
Theorem serialize_length_needs_llc (eth : Ethernet) (b : SerializeBuffer)
    (opts : SerializeOptions) :
  Length eth <> 0 ->
  EthernetType eth <> EthernetTypeLLC ->
  exists (e : error) (eth' : Ethernet) (b' : SerializeBuffer),
    SerializeTo EthernetTypeLLC lotsOfZeros_len eth b opts
    = ret (Some e, eth', b') /\
    (len (DstMAC eth) = 6 -> len (SrcMAC eth) = 6 ->
     e = ErrTypeLength (EthernetType eth) (effective_length eth b opts)).
Proof.
  intros Hlen Hty.
  destruct (Z.eq_dec (len (DstMAC eth)) 6) as [Hd | Hd].
  - destruct (Z.eq_dec (len (SrcMAC eth)) 6) as [Hs | Hs].
    + rewrite SerializeTo_header by assumption. unfold length_mode.
      replace (Length eth =? 0) with false
        by (symmetry; apply Z.eqb_neq; assumption).
      replace (EthernetType eth =? EthernetTypeLLC) with false
        by (symmetry; apply Z.eqb_neq; assumption).
      cbn [negb orb]. cbv zeta.
      eexists; eexists; eexists. split; [reflexivity | ].
      intros _ _. unfold effective_length.
      destruct (FixLengths opts); reflexivity.
    + unfold SerializeTo.
      replace (len (DstMAC eth) =? 6) with true
        by (symmetry; apply Z.eqb_eq; assumption).
      replace (len (SrcMAC eth) =? 6) with false
        by (symmetry; apply Z.eqb_neq; assumption).
      cbn [negb]. eexists; eexists; eexists.
      split; [reflexivity | contradiction].
  - unfold SerializeTo.
    replace (len (DstMAC eth) =? 6) with false
      by (symmetry; apply Z.eqb_neq; assumption).
    cbn [negb]. eexists; eexists; eexists.
    split; [reflexivity | contradiction].
Qed.

(** C8. When [SerializeTo] succeeds, the buffer holds a 14-byte header
    and the bytes it held before; if these are fewer than 60 bytes, zeros
    follow, up to exactly 60 bytes; if they are 60 bytes or more, nothing
    follows.  The padding step itself always succeeds.  The zero block
    [lotsOfZeros] has at least 46 bytes. *)
Theorem serialize_padding (eth eth' : Ethernet) (b b' : SerializeBuffer)
    (opts : SerializeOptions) :
  (46 <= lotsOfZeros_len)%nat ->
  SerializeTo EthernetTypeLLC lotsOfZeros_len eth b opts
  = ret (None, eth', b') ->
  (exists hdr : list byte,
      len hdr = 14 /\
      (14 + len (Bytes b) < 60 ->
         Bytes b'
         = hdr ++ Bytes b ++ repeat x00 (Z.to_nat (60 - (14 + len (Bytes b))))
         /\ len (Bytes b') = 60) /\
      (60 <= 14 + len (Bytes b) -> Bytes b' = hdr ++ Bytes b)) /\
  (forall (e : Ethernet) (b0 : SerializeBuffer),
      exists b1 : SerializeBuffer,
        pad lotsOfZeros_len e b0 = ret (None, e, b1)).
Proof.
  intros Hz Hok. split; [ | intros e b0; eexists; apply pad_appends].
  assert (Hmacs : len (DstMAC eth) = 6 /\ len (SrcMAC eth) = 6).
  { unfold SerializeTo in Hok.
    destruct (Z.eqb_spec (len (DstMAC eth)) 6) as [Hd | Hd];
      [ | discriminate Hok].
    destruct (Z.eqb_spec (len (SrcMAC eth)) 6) as [Hs | Hs];
      [ | discriminate Hok].
    split; assumption. }
  destruct Hmacs as [Hd Hs].
  assert (Hframed : exists v, b' = framed lotsOfZeros_len eth v b).
  { rewrite SerializeTo_header in Hok by assumption.
    destruct (length_mode EthernetTypeLLC eth); cbv zeta in Hok.
    - destruct (negb (EthernetType eth =? EthernetTypeLLC));
        [discriminate Hok | ].
      destruct (Length _ >? 0x0600); [discriminate Hok | ].
      injection Hok as _ <-. eexists; reflexivity.
    - injection Hok as _ <-. eexists; reflexivity. }
  destruct Hframed as [v ->].
  pose proof (len_wire_header eth v Hd Hs) as Hl.
  pose proof (len_nonneg (contents b)) as Hb.
  exists (wire_header eth v). split; [assumption | ].
  unfold framed, Bytes, fill. cbn [contents].
  assert (Hmem : len (wire_header eth v ++ contents b) = 14 + len (contents b)).
  { unfold len in *. rewrite length_app. lia. }
  rewrite Hmem. split.
  - intros Hlt. rewrite padding_zeros by lia. rewrite <- app_assoc.
    split; [reflexivity | ].
    unfold len in *. rewrite !length_app, repeat_length. lia.
  - intros Hge. rewrite padding_zeros by lia.
    replace (Z.to_nat (60 - (14 + len (contents b)))) with 0%nat by lia.
    cbn [repeat]. rewrite app_nil_r. reflexivity.
Qed.

(** C9. A layer whose [DstMAC] or [SrcMAC] is not 6 bytes long:
    [SerializeTo] returns an error and the buffer and the layer are as
    they were, nothing has been written. *)
Theorem serialize_invalid_mac (eth : Ethernet) (b : SerializeBuffer)
    (opts : SerializeOptions) :
  len (DstMAC eth) <> 6 \/ len (SrcMAC eth) <> 6 ->
  exists e : error,
    SerializeTo EthernetTypeLLC lotsOfZeros_len eth b opts
    = ret (Some e, eth, b) /\
    (e = ErrInvalidDstMAC (DstMAC eth) \/ e = ErrInvalidSrcMAC (SrcMAC eth)).
Proof.
  intros Hmac. unfold SerializeTo.
  destruct (Z.eqb_spec (len (DstMAC eth)) 6) as [Hd | Hd]; cbn [negb].
  - destruct Hmac as [Hmac | Hmac]; [contradiction | ].
    replace (len (SrcMAC eth) =? 6) with false
      by (symmetry; apply Z.eqb_neq; assumption).
    cbn [negb]. eexists. split; [reflexivity | right; reflexivity].
  - eexists. split; [reflexivity | left; reflexivity].
Qed.

End Serialization.

(** In length mode with [EthernetType = EthernetTypeLLC] the check that the
    code makes is [Length > 0x0600]: a larger length is refused, and a
    length up to and including [0x0600] is written into bytes 12:14. *)
Lemma serialize_length_mode (EthernetTypeLLC : Z) (zeros : nat)
    (eth : Ethernet) (b : SerializeBuffer) (opts : SerializeOptions) :
  len (DstMAC eth) = 6 -> len (SrcMAC eth) = 6 ->
  length_mode EthernetTypeLLC eth = true ->
  EthernetType eth = EthernetTypeLLC ->
  (0x0600 < effective_length eth b opts ->
   exists eth' b',
     SerializeTo EthernetTypeLLC zeros eth b opts
     = ret (Some (ErrInvalidLength (effective_length eth b opts)), eth', b'))
  /\
  (effective_length eth b opts <= 0x0600 ->
   exists eth' b',
     SerializeTo EthernetTypeLLC zeros eth b opts = ret (None, eth', b') /\
     Length eth' = effective_length eth b opts /\
     firstn 14 (Bytes b') = wire_header eth (effective_length eth b opts)).
Proof.
  intros Hd Hs Hmode Hty.
  rewrite SerializeTo_header by assumption. rewrite Hmode. cbv zeta.
  replace (EthernetType eth =? EthernetTypeLLC) with true
    by (symmetry; apply Z.eqb_eq; assumption).
  cbn [negb]. unfold effective_length.
  destruct (FixLengths opts); cbn [Length set_Length]; split; intros Hl.
  - replace (uint16 (len (Bytes b)) >? 0x0600) with true
      by (symmetry; rewrite Z.gtb_ltb; apply Z.ltb_lt; lia).
    eexists; eexists; reflexivity.
  - replace (uint16 (len (Bytes b)) >? 0x0600) with false
      by (symmetry; rewrite Z.gtb_ltb; apply Z.ltb_ge; lia).
    eexists; eexists. split; [reflexivity | ]. split; [reflexivity | ].
    apply firstn_framed; assumption.
  - replace (Length eth >? 0x0600) with true
      by (symmetry; rewrite Z.gtb_ltb; apply Z.ltb_lt; lia).
    eexists; eexists; reflexivity.
  - replace (Length eth >? 0x0600) with false
      by (symmetry; rewrite Z.gtb_ltb; apply Z.ltb_ge; lia).
    eexists; eexists. split; [reflexivity | ]. split; [reflexivity | ].
    apply firstn_framed; assumption.
Qed.

(** ** The examples *)

(** decode(dst(6 x 0xAA) + src(6 x 0xBB) + [0x08, 0x00] + 46 zero bytes) *)
Example decode_frame_ipv4 :
  DecodeFromBytes 0 empty_layer frame_ipv4 (MkFlag false)
  = ret (None,
         MkEthernet (MkBaseLayer (firstn 14 frame_ipv4) (repeat x00 46))
           mac_bb mac_aa 0x0800 0,
         MkFlag false).
Proof. reflexivity. Qed.

(** decode(dst + src + [0x00, 0x05] + 10 payload bytes) *)
Example decode_frame_llc :
  DecodeFromBytes 0 empty_layer frame_llc (MkFlag false)
  = ret (None,
         MkEthernet
           (MkBaseLayer (firstn 14 frame_llc) [x01; x02; x03; x04; x05])
           mac_bb mac_aa 0 5,
         MkFlag false).
Proof. reflexivity. Qed.

Example decode_frame_short :
  DecodeFromBytes 0 empty_layer frame_short (MkFlag false)
  = ret (None,
         MkEthernet (MkBaseLayer (firstn 14 frame_short) [x01; x02])
           mac_bb mac_aa 0 5,
         MkFlag true).
Proof. reflexivity. Qed.

(** Why the round trip needs [EthernetTypeLLC] below [0x0600]: were it
    [0x0800], the layer decoded from [frame_ipv4] would be serialized in
    length mode, with the field [0x00 0x00]. *)
Example roundtrip_sentinel_0x0800 :
  exists b',
    SerializeTo 0x0800 1024 layer_ipv4 empty_buffer no_options
    = ret (None, layer_ipv4, b') /\
    slice (Bytes b') 12 14 = ret [x00; x00].
Proof. eexists. split; reflexivity. Qed.

Lemma decode_fields_witness :
  14 <= len frame_ipv4 /\
  exists eth' df',
    DecodeFromBytes 0 empty_layer frame_ipv4 (MkFlag false)
    = ret (None, eth', df') /\
    EthernetType eth' = 0x0800 /\ Length eth' = 0 /\
    Payload (Base eth') = repeat x00 46 /\
    DstMAC eth' = mac_aa /\ SrcMAC eth' = mac_bb.
Proof.
  assert (Hlen : 14 <= len frame_ipv4) by by_computation.
  split; [exact Hlen | ].
  destruct (decode_fields 0 empty_layer frame_ipv4 (MkFlag false) Hlen)
    as (eth' & df' & Hdec & Hty & _ & Hdst & Hsrc & _).
  destruct Hty as (Ht & Hl & Hp); [split; by_computation | ].
  exists eth', df'. repeat split; assumption.
Defined.

Lemma decode_serialize_roundtrip_witness :
  14 <= len frame_ipv4 /\ 0 < 0x0600 /\ FixLengths no_options = false /\
  exists eth1 df1 b2,
    DecodeFromBytes 0 empty_layer frame_ipv4 (MkFlag false)
    = ret (None, eth1, df1) /\
    SerializeTo 0 1024 eth1 empty_buffer no_options = ret (None, eth1, b2) /\
    firstn 14 (Bytes b2) = firstn 14 frame_ipv4.
Proof.
  split; [by_computation | ]. split; [by_computation | ].
  split; [reflexivity | ].
  apply (decode_serialize_roundtrip 0 1024);
    [by_computation | by_computation | reflexivity].
Defined.

Lemma decode_too_short_witness :
  len (firstn 13 frame_ipv4) <= 13 /\
  DecodeFromBytes 0 empty_layer (firstn 13 frame_ipv4) (MkFlag false)
  = ret (Some ErrTooSmall, empty_layer, MkFlag false).
Proof.
  assert (Hlen : len (firstn 13 frame_ipv4) <= 13) by by_computation.
  split; [exact Hlen | ].
  exact (proj1 (decode_too_short 0 empty_layer (firstn 13 frame_ipv4)
                  (MkFlag false) Hlen)).
Defined.

Lemma decode_truncated_witness :
  14 <= len frame_short /\ field16 frame_short < 0x0600 /\
  len (skipn 14 frame_short) < field16 frame_short /\
  exists eth',
    DecodeFromBytes 0 empty_layer frame_short 0%nat
    = ret (None, eth', SetTruncated 0%nat) /\
    Payload (Base eth') = skipn 14 frame_short /\
    Length eth' = field16 frame_short.
Proof.
  split; [by_computation | ]. split; [by_computation | ].
  split; [by_computation | ].
  apply (decode_truncated 0 empty_layer frame_short 0%nat); by_computation.
Defined.

Lemma decode_trimmed_witness :
  14 <= len frame_llc /\ field16 frame_llc < 0x0600 /\
  field16 frame_llc < len (skipn 14 frame_llc) /\
  exists eth',
    DecodeFromBytes 0 empty_layer frame_llc 0%nat = ret (None, eth', 0%nat) /\
    Payload (Base eth')
    = firstn (Z.to_nat (field16 frame_llc)) (skipn 14 frame_llc) /\
    len (Payload (Base eth')) = field16 frame_llc.
Proof.
  split; [by_computation | ]. split; [by_computation | ].
  split; [by_computation | ].
  apply (decode_trimmed 0 empty_layer frame_llc 0%nat); by_computation.
Defined.

Lemma serialize_length_needs_llc_witness :
  Length layer_ipv4_length <> 0 /\ EthernetType layer_ipv4_length <> 0 /\
  exists e eth' b',
    SerializeTo 0 1024 layer_ipv4_length empty_buffer no_options
    = ret (Some e, eth', b') /\
    (len (DstMAC layer_ipv4_length) = 6 ->
     len (SrcMAC layer_ipv4_length) = 6 ->
     e = ErrTypeLength (EthernetType layer_ipv4_length)
           (effective_length layer_ipv4_length empty_buffer no_options)).
Proof.
  split; [by_computation | ]. split; [by_computation | ].
  apply (serialize_length_needs_llc 0 1024); by_computation.
Defined.

Lemma serialize_padding_witness :
  (46 <= 1024)%nat /\
  SerializeTo 0 1024 layer_ipv4 small_buffer no_options
  = ret (None, layer_ipv4, framed 1024 layer_ipv4 0x0800 small_buffer) /\
  (exists hdr : list byte,
      len hdr = 14 /\
      (14 + len (Bytes small_buffer) < 60 ->
         Bytes (framed 1024 layer_ipv4 0x0800 small_buffer)
         = hdr ++ Bytes small_buffer
           ++ repeat x00 (Z.to_nat (60 - (14 + len (Bytes small_buffer))))
         /\ len (Bytes (framed 1024 layer_ipv4 0x0800 small_buffer)) = 60) /\
      (60 <= 14 + len (Bytes small_buffer) ->
         Bytes (framed 1024 layer_ipv4 0x0800 small_buffer)
         = hdr ++ Bytes small_buffer)) /\
  (forall (e : Ethernet) (b0 : SerializeBuffer),
      exists b1 : SerializeBuffer, pad 1024 e b0 = ret (None, e, b1)).
Proof.
  assert (Hz : (46 <= 1024)%nat) by lia.
  split; [exact Hz | ]. split; [reflexivity | ].
  apply (serialize_padding 0 1024 layer_ipv4 layer_ipv4 small_buffer
           (framed 1024 layer_ipv4 0x0800 small_buffer) no_options Hz).
  reflexivity.
Defined.

Lemma serialize_invalid_mac_witness :
  (len (DstMAC layer_short_mac) <> 6 \/ len (SrcMAC layer_short_mac) <> 6) /\
  exists e : error,
    SerializeTo 0 1024 layer_short_mac small_buffer no_options
    = ret (Some e, layer_short_mac, small_buffer) /\
    (e = ErrInvalidDstMAC (DstMAC layer_short_mac)
     \/ e = ErrInvalidSrcMAC (SrcMAC layer_short_mac)).
Proof.
  assert (Hmac : len (DstMAC layer_short_mac) <> 6
                 \/ len (SrcMAC layer_short_mac) <> 6)
    by (right; by_computation).
  split; [exact Hmac | ].
  apply (serialize_invalid_mac 0 1024 layer_short_mac small_buffer no_options
           Hmac).
Defined.

Lemma swap_src_dst_witness :
  12 <= len frame_llc /\
  exists o' : EthernetHeader,
    SwapSrcDst frame_llc = ret o' /\
    SwapSrcDst o' = ret frame_llc /\
    GetDestAddress frame_llc = ret (firstn 6 frame_llc) /\
    GetSrcAddress frame_llc = ret (firstn 6 (skipn 6 frame_llc)) /\
    GetSrcAddress o' = GetDestAddress frame_llc /\
    GetDestAddress o' = GetSrcAddress frame_llc /\
    skipn 12 o' = skipn 12 frame_llc /\
    len o' = len frame_llc.
Proof.
  split; [by_computation | ].
  apply (swap_src_dst frame_llc). by_computation.
Defined.

(** * Further properties of the header view *)

Lemma byte_to_of_Z (v : Z) : byte_to_Z (byte_of_Z v) = v mod 256.
Proof.
  unfold byte_of_Z, byte_to_Z.
  pose proof (Z.mod_pos_bound v 256 ltac:(lia)) as Hm.
  destruct (Byte.of_N (Z.to_N (v mod 256))) as [b | ] eqn:Hb.
  - apply Byte.to_of_N in Hb. rewrite Hb. lia.
  - apply Byte.of_N_None_iff in Hb. lia.
Qed.

Lemma byte_to_Z_inj (x y : byte) : byte_to_Z x = byte_to_Z y -> x = y.
Proof.
  intros Hxy. rewrite <- (byte_of_to_Z x), <- (byte_of_to_Z y), Hxy.
  reflexivity.
Qed.

(** [bytes.Compare] is [0] on equal slices only. *)
Lemma Compare_eq (a b : list byte) : Compare a b = 0 <-> a = b.
Proof.
  revert b. induction a as [ | x a IH]; intros [ | y b]; cbn [Compare];
    try (split; [lia | discriminate]); [split; reflexivity | ].
  destruct (Z.ltb_spec (byte_to_Z x) (byte_to_Z y)) as [Hlt | Hge].
  - split; [lia | ]. intros Heq. injection Heq as -> _. lia.
  - destruct (Z.ltb_spec (byte_to_Z y) (byte_to_Z x)) as [Hgt | Hle].
    + split; [lia | ]. intros Heq. injection Heq as -> _. lia.
    + rewrite IH. assert (Hxy : x = y) by (apply byte_to_Z_inj; lia).
      subst y. split; [intros ->; reflexivity | ].
      intros Heq. injection Heq as ->. reflexivity.
Qed.

(** [copy] of [y] into the window that covers [x] in [p ++ x ++ s]: the
    first bytes of [y] replace as many bytes of [x]; when [y] is the
    shorter, the tail of [x] stays. *)
Lemma copy_over {A : Type} (p x s y : list A) (w : window) :
  w_lo w = len p -> w_hi w = len p + len x ->
  copy (p ++ x ++ s) w y
  = p ++ (firstn (length x) y ++ skipn (length y) x) ++ s.
Proof.
  intros Hlo Hhi. unfold copy, w_len. rewrite Hlo, Hhi. unfold len.
  replace (Z.to_nat (Z.of_nat (length p) + Z.of_nat (length x)
                     - Z.of_nat (length p))) with (length x) by lia.
  rewrite Nat2Z.id, firstn_length_app, skipn_length_app.
  f_equal. rewrite <- app_assoc. rewrite skipn_app.
  destruct (Nat.le_gt_cases (length y) (length x)) as [Hle | Hgt].
  - rewrite Nat.min_r by assumption.
    replace (length y - length x)%nat with 0%nat by lia. cbn [skipn].
    rewrite firstn_all, (firstn_all2 y) by assumption. reflexivity.
  - rewrite Nat.min_l by lia.
    rewrite (skipn_all2 x) by lia. rewrite (skipn_all2 x) by lia.
    rewrite Nat.sub_diag. reflexivity.
Qed.

Lemma slice_all {A : Type} (d : list A) : slice_from d 0 = ret d.
Proof.
  rewrite slice_from_in_range by (lia || apply len_nonneg). reflexivity.
Qed.

Lemma SetSrcAddress_app (a b r d : list byte) :
  length a = 6%nat -> length b = 6%nat ->
  SetSrcAddress (a ++ b ++ r) d
  = ret (a ++ (firstn 6 d ++ skipn (length d) b) ++ r).
Proof.
  intros Ha Hb. unfold SetSrcAddress.
  rewrite sub_in_range by window_bounds. rewrite slice_all.
  cbn [bind ret whole w_lo].
  rewrite (copy_over a b r d); cbn [w_lo w_hi]; unfold len; try lia.
  rewrite Hb. reflexivity.
Qed.

Lemma SetDestAddress_app (a q d : list byte) :
  length a = 6%nat ->
  SetDestAddress (a ++ q) d = ret ((firstn 6 d ++ skipn (length d) a) ++ q).
Proof.
  intros Ha. unfold SetDestAddress.
  rewrite sub_in_range by window_bounds. rewrite slice_all.
  cbn [bind ret whole w_lo].
  rewrite (copy_over [] a q d); cbn [w_lo w_hi length]; unfold len;
    cbn [length]; try lia.
  rewrite Ha. reflexivity.
Qed.

Lemma SetBroadcast_app (a q : list byte) :
  length a = 6%nat -> SetBroadcast (a ++ q) = ret (EthernetBroadcast ++ q).
Proof.
  intros Ha. unfold SetBroadcast.
  rewrite sub_in_range by window_bounds. cbn [bind ret whole w_lo].
  rewrite (copy_over [] a q); cbn [w_lo w_hi length]; unfold len;
    cbn [length]; try lia.
  rewrite Ha. cbn [length]. rewrite skipn_all2 by lia. reflexivity.
Qed.

(** A header of at least 6 bytes is a 6-byte block and the rest. *)
Lemma header_block (o : EthernetHeader) :
  6 <= len o -> o = firstn 6 o ++ skipn 6 o /\ length (firstn 6 o) = 6%nat.
Proof.
  unfold len. intros Hlen. split.
  - symmetry. apply firstn_skipn.
  - rewrite length_firstn. lia.
Qed.

Lemma GetDestAddress_app (a q : list byte) :
  length a = 6%nat -> GetDestAddress (a ++ q) = ret a.
Proof.
  intros Ha. unfold GetDestAddress.
  rewrite slice_in_range by (unfold len; rewrite ?length_app; lia).
  change (Z.to_nat (6 - 0)) with 6%nat. change (Z.to_nat 0) with 0%nat.
  cbn [skipn]. f_equal. apply blocks_fst; assumption.
Qed.

Lemma GetSrcAddress_app (a b r : list byte) :
  length a = 6%nat -> length b = 6%nat -> GetSrcAddress (a ++ b ++ r) = ret b.
Proof.
  intros Ha Hb. unfold GetSrcAddress.
  rewrite slice_in_range by (unfold len; rewrite ?length_app; lia).
  change (Z.to_nat (12 - 6)) with 6%nat. change (Z.to_nat 6) with 6%nat.
  f_equal. apply blocks_snd; assumption.
Qed.

Lemma length_replaced {A : Type} (d x : list A) :
  length x = 6%nat -> length (firstn 6 d ++ skipn (length d) x) = 6%nat.
Proof. intros Hx. rewrite length_app, length_firstn, length_skipn. lia. Qed.

Lemma GetNextProtocol_app (a b r : list byte) :
  length a = 6%nat -> length b = 6%nat -> 2 <= len r ->
  GetNextProtocol (a ++ b ++ r) = Uint16 r /\ exists t, Uint16 r = ret t.
Proof.
  intros Ha Hb Hr. unfold GetNextProtocol.
  rewrite slice_in_range by (unfold len in *; rewrite ?length_app; lia).
  change (Z.to_nat (14 - 12)) with 2%nat. change (Z.to_nat 12) with 12%nat.
  rewrite blocks_rest by assumption. cbn [bind ret].
  destruct r as [ | t0 [ | t1 r]]; try (unfold len in Hr; cbn in Hr; lia).
  split; [reflexivity | eexists; reflexivity].
Qed.

Ltac split_header o Hlen a b r Ho Ha Hb :=
  destruct (header_blocks o Hlen) as (Ho & Ha & Hb);
  set (a := firstn 6 o) in *; set (b := firstn 6 (skipn 6 o)) in *;
  set (r := skipn 12 o) in *; clearbody a b r; subst o.

(** X1. [SetSrcAddress] with an address of at least 6 bytes, on a header
    of at least 12 bytes: afterwards [GetSrcAddress] is the first 6 bytes
    of the address; the destination address, the bytes from index 12 on
    and the length are as before. *)
Theorem set_src_address (o : EthernetHeader) (d : list byte) :
  12 <= len o -> 6 <= len d ->
  exists o' : EthernetHeader,
    SetSrcAddress o d = ret o' /\
    GetSrcAddress o' = ret (firstn 6 d) /\
    GetDestAddress o' = ret (firstn 6 o) /\
    skipn 12 o' = skipn 12 o /\
    len o' = len o.
Proof.
  intros Hlen Hd. split_header o Hlen a b r Ho Ha Hb.
  rewrite SetSrcAddress_app by assumption.
  rewrite (skipn_all2 b) by (unfold len in Hd; lia). rewrite app_nil_r.
  assert (Hd6 : length (firstn 6 d) = 6%nat)
    by (rewrite length_firstn; unfold len in Hd; lia).
  eexists. split; [reflexivity | ].
  rewrite GetSrcAddress_app, GetDestAddress_app, !blocks_rest by assumption.
  repeat split. unfold len. rewrite !length_app. lia.
Qed.

(** X2. [SetDestAddress] with an address of at least 6 bytes, on a header
    of at least 12 bytes: afterwards [GetDestAddress] is the first 6 bytes
    of the address; the source address, the bytes from index 12 on and the
    length are as before. *)
Theorem set_dest_address (o : EthernetHeader) (d : list byte) :
  12 <= len o -> 6 <= len d ->
  exists o' : EthernetHeader,
    SetDestAddress o d = ret o' /\
    GetDestAddress o' = ret (firstn 6 d) /\
    GetSrcAddress o' = ret (firstn 6 (skipn 6 o)) /\
    skipn 12 o' = skipn 12 o /\
    len o' = len o.
Proof.
  intros Hlen Hd. split_header o Hlen a b r Ho Ha Hb.
  rewrite SetDestAddress_app by assumption.
  rewrite (skipn_all2 a) by (unfold len in Hd; lia). rewrite app_nil_r.
  assert (Hd6 : length (firstn 6 d) = 6%nat)
    by (rewrite length_firstn; unfold len in Hd; lia).
  eexists. split; [reflexivity | ].
  rewrite GetSrcAddress_app, GetDestAddress_app, !blocks_rest by assumption.
  repeat split. unfold len. rewrite !length_app. lia.
Qed.

(** X3. An address of fewer than 6 bytes replaces only as many bytes:
    after [SetSrcAddress] (or [SetDestAddress]) the source (destination)
    address is the given bytes followed by the bytes the address had
    before at the remaining positions.  Nothing fails. *)
Theorem set_address_short (o : EthernetHeader) (d : list byte) :
  12 <= len o -> len d < 6 ->
  exists o1 o2 : EthernetHeader,
    SetSrcAddress o d = ret o1 /\
    GetSrcAddress o1 = ret (d ++ skipn (length d) (firstn 6 (skipn 6 o))) /\
    SetDestAddress o d = ret o2 /\
    GetDestAddress o2 = ret (d ++ skipn (length d) (firstn 6 o)).
Proof.
  intros Hlen Hd. split_header o Hlen a b r Ho Ha Hb.
  rewrite SetSrcAddress_app, SetDestAddress_app by assumption.
  rewrite (firstn_all2 d) by (unfold len in Hd; lia).
  assert (Hda : length (d ++ skipn (length d) a) = 6%nat)
    by (rewrite length_app, length_skipn; unfold len in Hd; lia).
  assert (Hdb : length (d ++ skipn (length d) b) = 6%nat)
    by (rewrite length_app, length_skipn; unfold len in Hd; lia).
  eexists; eexists. split; [reflexivity | ].
  rewrite GetSrcAddress_app by assumption. split; [reflexivity | ].
  split; [reflexivity | ].
  rewrite GetDestAddress_app by assumption. reflexivity.
Qed.

(** X4. [IsBroadcast] on a header of at least 6 bytes returns whether its
    first 6 bytes are the broadcast address. *)
Theorem is_broadcast_iff (o : EthernetHeader) :
  6 <= len o ->
  exists r : bool,
    IsBroadcast o = ret r /\ (r = true <-> firstn 6 o = EthernetBroadcast).
Proof.
  intros Hlen. unfold IsBroadcast.
  rewrite slice_in_range by lia.
  change (slice EthernetBroadcast 0 6) with (ret EthernetBroadcast).
  change (Z.to_nat (6 - 0)) with 6%nat. change (Z.to_nat 0) with 0%nat.
  cbn [skipn bind ret].
  destruct (Z.eqb_spec (Compare (firstn 6 o) EthernetBroadcast) 0)
    as [Heq | Hne]; eexists; (split; [reflexivity | ]).
  - split; [intros _; apply Compare_eq; assumption | reflexivity].
  - split; [discriminate | ]. intros Heq. apply Compare_eq in Heq.
    contradiction.
Qed.

(** X5. [SetBroadcast] on a header of at least 6 bytes: afterwards
    [IsBroadcast] and [IsMcast] hold; the bytes from index 6 on and the
    length are as before. *)
Theorem set_broadcast (o : EthernetHeader) :
  6 <= len o ->
  exists o' : EthernetHeader,
    SetBroadcast o = ret o' /\
    IsBroadcast o' = ret true /\
    IsMcast o' = ret true /\
    skipn 6 o' = skipn 6 o /\
    len o' = len o.
Proof.
  intros Hlen. destruct (header_block o Hlen) as (Ho & Ha).
  set (a := firstn 6 o) in *. set (q := skipn 6 o) in *. clearbody a q.
  subst o. rewrite SetBroadcast_app by assumption.
  eexists. split; [reflexivity | ].
  split; [ | split; [reflexivity | split; [reflexivity | ]]].
  - unfold IsBroadcast.
    rewrite slice_in_range
      by (unfold len; rewrite ?length_app; cbn [length EthernetBroadcast]; lia).
    reflexivity.
  - unfold len. rewrite !length_app, Ha. reflexivity.
Qed.


(** X7. The operations that rewrite addresses leave the type field alone:
    on a header of at least 14 bytes, [GetNextProtocol] returns the same
    value after [SwapSrcDst], [SetSrcAddress], [SetDestAddress] and
    [SetBroadcast] as before. *)
Theorem mutators_keep_type (o : EthernetHeader) (d : list byte) :
  14 <= len o ->
  exists (t : Z) (o1 o2 o3 o4 : EthernetHeader),
    GetNextProtocol o = ret t /\
    SwapSrcDst o = ret o1 /\ GetNextProtocol o1 = ret t /\
    SetSrcAddress o d = ret o2 /\ GetNextProtocol o2 = ret t /\
    SetDestAddress o d = ret o3 /\ GetNextProtocol o3 = ret t /\
    SetBroadcast o = ret o4 /\ GetNextProtocol o4 = ret t.
Proof.
  intros Hlen14. assert (Hlen : 12 <= len o) by lia.
  assert (Hr : 2 <= len (skipn 12 o))
    by (unfold len in *; rewrite length_skipn; lia).
  split_header o Hlen a b r Ho Ha Hb.
  destruct (GetNextProtocol_app a b r Ha Hb Hr) as [Hget [t Ht]].
  assert (Hsame : forall a' b' : list byte,
             length a' = 6%nat -> length b' = 6%nat ->
             GetNextProtocol (a' ++ b' ++ r) = ret t).
  { intros a' b' Ha' Hb'.
    destruct (GetNextProtocol_app a' b' r Ha' Hb' Hr) as [-> _]. exact Ht. }
  exists t.
  rewrite SwapSrcDst_app, SetSrcAddress_app, SetDestAddress_app by assumption.
  rewrite (SetBroadcast_app a (b ++ r)) by assumption.
  do 4 eexists. split; [apply Hsame; assumption | ].
  split; [reflexivity | ]. split; [apply Hsame; assumption | ].
  split; [reflexivity | ].
  split; [apply Hsame; [assumption | apply length_replaced; assumption] | ].
  split; [reflexivity | ].
  split; [apply Hsame; [apply length_replaced; assumption | assumption] | ].
  split; [reflexivity | ].
  apply Hsame; [reflexivity | assumption].
Qed.

(** * Further properties of decoding *)

Lemma field16_app (a b r : list byte) :
  length a = 6%nat -> length b = 6%nat ->
  field16 (a ++ b ++ r)
  = 256 * byte_to_Z (nth 0 r x00) + byte_to_Z (nth 1 r x00).
Proof.
  intros Ha Hb. unfold field16.
  rewrite !(app_nth2 a) by lia. rewrite !(app_nth2 b) by lia.
  rewrite Ha, Hb. reflexivity.
Qed.

Lemma skipn_14_app (a b r : list byte) :
  length a = 6%nat -> length b = 6%nat ->
  skipn 14 (a ++ b ++ r) = skipn 2 r.
Proof.
  intros Ha Hb. replace 14%nat with (length a + 8)%nat by lia.
  rewrite skipn_length_app.
  replace 8%nat with (length b + 2)%nat by lia.
  apply skipn_length_app.
Qed.

Lemma firstn_add_skipn {A : Type} (n m : nat) (l : list A) :
  firstn n l ++ firstn m (skipn n l) = firstn (n + m) l.
Proof.
  revert l. induction n as [ | n IH]; intros l; [reflexivity | ].
  destruct l as [ | x l];
    [cbn [firstn skipn app Nat.add]; apply firstn_nil | ].
  cbn [firstn skipn app Nat.add]. rewrite IH. reflexivity.
Qed.

Lemma firstn_own_length {A : Type} (k : nat) (l : list A) :
  firstn (length (firstn k l)) l = firstn k l.
Proof.
  revert l. induction k as [ | k IH]; intros l; [reflexivity | ].
  destruct l as [ | x l]; [reflexivity | ].
  cbn [firstn length]. rewrite IH. reflexivity.
Qed.

Section MoreDecoding.

Variable EthernetTypeLLC : Z.
Context {D : Type} `{DecodeFeedback D}.

(** A successful decode has had at least 14 bytes. *)
Lemma decoded_has_header (eth eth' : Ethernet) (data : list byte) (df df' : D) :
  DecodeFromBytes EthernetTypeLLC eth data df = ret (None, eth', df') ->
  14 <= len data.
Proof.
  unfold DecodeFromBytes. intros Hdec.
  destruct (Z.ltb_spec (len data) 14) as [Hlt | Hge];
    [discriminate Hdec | assumption].
Qed.

(** X8. The layer decoded from a frame agrees with the accessors of the
    header view on the same bytes: [DstMAC] is [GetDestAddress], [SrcMAC]
    is [GetSrcAddress], and the value of [GetNextProtocol] is [Length]
    when it is below [0x0600] and [EthernetType] otherwise. *)
Theorem decode_agrees_with_view (eth : Ethernet) (data : list byte) (df : D) :
  14 <= len data ->
  exists (eth' : Ethernet) (df' : D) (t : Z),
    DecodeFromBytes EthernetTypeLLC eth data df = ret (None, eth', df') /\
    GetDestAddress data = ret (DstMAC eth') /\
    GetSrcAddress data = ret (SrcMAC eth') /\
    GetNextProtocol data = ret t /\
    ((t < 0x0600 /\ Length eth' = t) \/
     (0x0600 <= t /\ EthernetType eth' = t)).
Proof.
  intros Hlen. rewrite DecodeFromBytes_header by assumption. cbv zeta.
  unfold GetDestAddress, GetSrcAddress.
  rewrite !slice_in_range by lia.
  rewrite (GetNextProtocol_field16 data Hlen).
  change (Z.to_nat (6 - 0)) with 6%nat. change (Z.to_nat (12 - 6)) with 6%nat.
  change (Z.to_nat 0) with 0%nat. change (Z.to_nat 6) with 6%nat.
  change (skipn 0 data) with data.
  destruct (Z.ltb_spec (field16 data) 0x0600) as [Hlt | Hge];
    do 3 eexists; (split; [reflexivity | ]); cbn [DstMAC SrcMAC Length
      EthernetType]; repeat (split; [reflexivity | ]).
  - left. split; [assumption | reflexivity].
  - right. split; [assumption | reflexivity].
Qed.

(** X9. Decoding a frame after [SwapSrcDst]: the same layer with [DstMAC]
    and [SrcMAC] exchanged; type, length, payload and the feedback are the
    same. *)
Theorem decode_after_swap (eth : Ethernet) (data : list byte) (df : D) :
  14 <= len data ->
  exists (data' : list byte) (eth1 eth2 : Ethernet) (df1 : D),
    SwapSrcDst data = ret data' /\
    DecodeFromBytes EthernetTypeLLC eth data df = ret (None, eth1, df1) /\
    DecodeFromBytes EthernetTypeLLC eth data' df = ret (None, eth2, df1) /\
    DstMAC eth2 = SrcMAC eth1 /\ SrcMAC eth2 = DstMAC eth1 /\
    EthernetType eth2 = EthernetType eth1 /\ Length eth2 = Length eth1 /\
    Payload (Base eth2) = Payload (Base eth1).
Proof.
  intros Hlen14. assert (Hlen : 12 <= len data) by lia.
  split_header data Hlen a b r Ho Ha Hb.
  assert (Hlen' : 14 <= len (b ++ a ++ r))
    by (unfold len in *; rewrite !length_app in *; lia).
  exists (b ++ a ++ r).
  rewrite SwapSrcDst_app by assumption.
  rewrite !DecodeFromBytes_header by assumption. cbv zeta.
  rewrite !field16_app, !skipn_14_app by assumption.
  rewrite !blocks_fst, !blocks_snd by assumption.
  destruct (256 * byte_to_Z (nth 0 r x00) + byte_to_Z (nth 1 r x00) <? 0x0600);
    do 3 eexists; repeat (split; [reflexivity | ]); reflexivity.
Qed.

(** X10. The two byte ranges of a decoded layer: the header is 14 bytes,
    and header and payload together are a prefix of the buffer, the whole
    buffer when the field is a type. *)
Theorem decode_base_layer (eth : Ethernet) (data : list byte) (df : D) :
  14 <= len data ->
  exists (eth' : Ethernet) (df' : D),
    DecodeFromBytes EthernetTypeLLC eth data df = ret (None, eth', df') /\
    len (Contents (Base eth')) = 14 /\
    Contents (Base eth') ++ Payload (Base eth')
    = firstn (14 + length (Payload (Base eth'))) data /\
    (0x0600 <= field16 data ->
     Contents (Base eth') ++ Payload (Base eth') = data).
Proof.
  intros Hlen. rewrite DecodeFromBytes_header by assumption. cbv zeta.
  assert (H14 : len (firstn 14 data) = 14)
    by (unfold len in *; rewrite length_firstn; lia).
  destruct (Z.ltb_spec (field16 data) 0x0600) as [Hlt | Hge];
    do 2 eexists; (split; [reflexivity | ]); cbn [Contents Payload Base];
    (split; [assumption | ]).
  - split; [ | lia].
    rewrite <- firstn_add_skipn, firstn_own_length. reflexivity.
  - rewrite firstn_skipn. split; [ | reflexivity].
    symmetry. apply firstn_all2. rewrite length_skipn. unfold len in Hlen. lia.
Qed.

(** X11. A successful decode overwrites every field of the layer: the
    result does not depend on what the layer held before. *)
Theorem decode_forgets_layer (eth1 eth2 : Ethernet) (data : list byte) (df : D) :
  14 <= len data ->
  DecodeFromBytes EthernetTypeLLC eth1 data df
  = DecodeFromBytes EthernetTypeLLC eth2 data df.
Proof.
  intros Hlen. rewrite !DecodeFromBytes_header by assumption. reflexivity.
Qed.

(** X12. What holds of every decoded layer: both addresses have 6 bytes;
    either the layer carries a type in [0x0600, 0xFFFF] and [Length = 0],
    or it carries [EthernetTypeLLC] and a length below [0x0600] that the
    payload does not exceed; and [SetTruncated] has been called exactly
    when the payload is shorter than the length. *)
Theorem decoded_layer_invariant (eth eth' : Ethernet) (data : list byte)
    (df df' : D) :
  DecodeFromBytes EthernetTypeLLC eth data df = ret (None, eth', df') ->
  len (DstMAC eth') = 6 /\ len (SrcMAC eth') = 6 /\
  ((0x0600 <= EthernetType eth' <= 0xFFFF /\ Length eth' = 0 /\ df' = df) \/
   (EthernetType eth' = EthernetTypeLLC /\ 0 <= Length eth' < 0x0600 /\
    ((len (Payload (Base eth')) = Length eth' /\ df' = df) \/
     (len (Payload (Base eth')) < Length eth' /\ df' = SetTruncated df)))).
Proof.
  intros Hdec. pose proof (decoded_has_header _ _ _ _ _ Hdec) as Hlen.
  rewrite DecodeFromBytes_header in Hdec by assumption. cbv zeta in Hdec.
  pose proof (field16_range data) as Hf.
  assert (Hmacs : len (firstn 6 data) = 6 /\ len (firstn 6 (skipn 6 data)) = 6)
    by (unfold len in *; rewrite !length_firstn, length_skipn; lia).
  remember (skipn 14 data) as rest eqn:Hrest.
  remember (firstn 6 data) as dst eqn:Hdst.
  remember (firstn 6 (skipn 6 data)) as src eqn:Hsrc.
  destruct (Z.ltb_spec (field16 data) 0x0600) as [Hlt | Hge].
  - destruct (Z.ltb_spec (len rest) (field16 data)) as [Hs | Hl];
      injection Hdec as <- <-; cbn [DstMAC SrcMAC EthernetType Length Payload
        Base]; (split; [apply Hmacs | ]); (split; [apply Hmacs | ]);
      right; (split; [reflexivity | ]); (split; [lia | ]).
    + right. rewrite (firstn_beyond _ (field16 data)) by lia.
      split; [assumption | reflexivity].
    + left. split; [ | reflexivity].
      unfold len in *. rewrite length_firstn. lia.
  - injection Hdec as <- <-. cbn [DstMAC SrcMAC EthernetType Length].
    split; [apply Hmacs | ]. split; [apply Hmacs | ].
    left. split; [lia | ]. split; reflexivity.
Qed.

End MoreDecoding.

(** * Further properties of serialization *)

(** Reading back the two bytes [PutUint16] writes for a 16-bit value. *)
Lemma read_of_put (v : Z) :
  0 <= v < 65536 ->
  256 * byte_to_Z (byte_of_Z (Z.shiftr v 8)) + byte_to_Z (byte_of_Z v) = v.
Proof.
  intros Hv. rewrite !byte_to_of_Z.
  rewrite Z.shiftr_div_pow2 by lia. change (2 ^ 8) with 256.
  assert (Hq : 0 <= v / 256 < 256)
    by (split; [apply Z.div_pos; lia | apply Z.div_lt_upper_bound; lia]).
  rewrite (Z.mod_small (v / 256)) by assumption.
  pose proof (Z.div_mod v 256 ltac:(lia)). lia.
Qed.

Section MoreSerialization.

Variable EthernetTypeLLC : Z.
Variable lotsOfZeros_len : nat.

(** A successful call has had two 6-byte addresses. *)
Lemma serialized_has_addresses (eth eth' : Ethernet) (b b' : SerializeBuffer)
    (opts : SerializeOptions) (r : option error) :
  SerializeTo EthernetTypeLLC lotsOfZeros_len eth b opts = ret (r, eth', b') ->
  (len (DstMAC eth) = 6 /\ len (SrcMAC eth) = 6) \/
  (eth' = eth /\ b' = b /\
   (r = Some (ErrInvalidDstMAC (DstMAC eth))
    \/ r = Some (ErrInvalidSrcMAC (SrcMAC eth)))).
Proof.
  unfold SerializeTo. intros Hser.
  destruct (Z.eqb_spec (len (DstMAC eth)) 6) as [Hd | Hd]; cbn [negb] in Hser.
  - destruct (Z.eqb_spec (len (SrcMAC eth)) 6) as [Hs | Hs]; cbn [negb] in Hser.
    + left. split; assumption.
    + right. injection Hser as <- <- <-. repeat split. right. reflexivity.
  - right. injection Hser as <- <- <-. repeat split. left. reflexivity.
Qed.

(** X13. When [SerializeTo] returns nil: exactly when both addresses have
    6 bytes and, in length mode, [EthernetType] is [EthernetTypeLLC] and the
    length (recomputed under [FixLengths]) is at most [0x0600]. *)
Theorem serialize_succeeds_iff (eth : Ethernet) (b : SerializeBuffer)
    (opts : SerializeOptions) :
  (exists (eth' : Ethernet) (b' : SerializeBuffer),
      SerializeTo EthernetTypeLLC lotsOfZeros_len eth b opts
      = ret (None, eth', b'))
  <->
  (len (DstMAC eth) = 6 /\ len (SrcMAC eth) = 6 /\
   (length_mode EthernetTypeLLC eth = true ->
    EthernetType eth = EthernetTypeLLC /\
    effective_length eth b opts <= 0x0600)).
Proof.
  assert (Heff : Length (if FixLengths opts
                         then set_Length eth (uint16 (len (Bytes b)))
                         else eth) = effective_length eth b opts)
    by (unfold effective_length; destruct (FixLengths opts); reflexivity).
  split.
  - intros (eth' & b' & Hser).
    destruct (serialized_has_addresses _ _ _ _ _ _ Hser)
      as [[Hd Hs] | (_ & _ & [Hr | Hr])]; try discriminate Hr.
    split; [assumption | ]. split; [assumption | ].
    rewrite SerializeTo_header in Hser by assumption. intros Hmode.
    rewrite Hmode in Hser. cbv zeta in Hser. rewrite Heff in Hser.
    destruct (Z.eqb_spec (EthernetType eth) EthernetTypeLLC) as [Hty | Hty];
      cbn [negb] in Hser; [ | discriminate Hser].
    split; [assumption | ].
    destruct (effective_length eth b opts >? 0x0600) eqn:Hgt;
      [discriminate Hser | ].
    rewrite Z.gtb_ltb in Hgt. apply Z.ltb_ge in Hgt. assumption.
  - intros (Hd & Hs & Hmode). rewrite SerializeTo_header by assumption.
    destruct (length_mode EthernetTypeLLC eth); cbv zeta;
      [ | do 2 eexists; reflexivity].
    destruct (Hmode eq_refl) as [Hty Hle]. rewrite Heff.
    replace (EthernetType eth =? EthernetTypeLLC) with true
      by (symmetry; apply Z.eqb_eq; assumption).
    replace (effective_length eth b opts >? 0x0600) with false
      by (symmetry; rewrite Z.gtb_ltb; apply Z.ltb_ge; assumption).
    cbn [negb]. do 2 eexists; reflexivity.
Qed.

(** The buffer of a successful call. *)
Lemma serialized_is_framed (eth eth' : Ethernet) (b b' : SerializeBuffer)
    (opts : SerializeOptions) :
  SerializeTo EthernetTypeLLC lotsOfZeros_len eth b opts = ret (None, eth', b')
  -> len (DstMAC eth) = 6 /\ len (SrcMAC eth) = 6 /\
     exists v, b' = framed lotsOfZeros_len eth v b.
Proof.
  intros Hser.
  destruct (serialized_has_addresses _ _ _ _ _ _ Hser)
    as [[Hd Hs] | (_ & _ & [Hr | Hr])]; try discriminate Hr.
  split; [assumption | ]. split; [assumption | ].
  rewrite SerializeTo_header in Hser by assumption.
  destruct (length_mode EthernetTypeLLC eth); cbv zeta in Hser.
  - destruct (negb (EthernetType eth =? EthernetTypeLLC));
      [discriminate Hser | ].
    destruct (Length _ >? 0x0600); [discriminate Hser | ].
    injection Hser as _ <-. eexists; reflexivity.
  - injection Hser as _ <-. eexists; reflexivity.
Qed.

(** X14. The frame a successful [SerializeTo] leaves in the buffer has
    [max 60 (14 + n)] bytes, [n] being the number of bytes the buffer held;
    these bytes follow the header unchanged.  This holds whatever the size
    of the zero block. *)
Theorem serialize_frame_length (eth eth' : Ethernet) (b b' : SerializeBuffer)
    (opts : SerializeOptions) :
  SerializeTo EthernetTypeLLC lotsOfZeros_len eth b opts = ret (None, eth', b')
  -> len (Bytes b') = Z.max 60 (14 + len (Bytes b)) /\
     firstn (length (Bytes b)) (skipn 14 (Bytes b')) = Bytes b.
Proof.
  intros Hser. destruct (serialized_is_framed _ _ _ _ _ Hser)
    as (Hd & Hs & v & ->).
  pose proof (len_wire_header eth v Hd Hs) as Hl.
  unfold framed, Bytes, fill. cbn [contents]. split.
  - unfold len in *. rewrite !length_app, length_padding. lia.
  - rewrite <- app_assoc.
    replace 14%nat with (length (wire_header eth v) + 0)%nat
      by (unfold len in Hl; lia).
    rewrite skipn_length_app. cbn [skipn]. apply firstn_length_app.
Qed.

(** X15. [SerializeTo] changes no field of the layer but [Length], and
    [Length] only in length mode under [FixLengths]; this holds for every
    result, an error included. *)
Theorem serialize_layer_change (eth eth' : Ethernet) (b b' : SerializeBuffer)
    (opts : SerializeOptions) (r : option error) :
  SerializeTo EthernetTypeLLC lotsOfZeros_len eth b opts = ret (r, eth', b') ->
  Base eth' = Base eth /\ SrcMAC eth' = SrcMAC eth /\
  DstMAC eth' = DstMAC eth /\ EthernetType eth' = EthernetType eth /\
  (Length eth' = Length eth \/
   (FixLengths opts = true /\ length_mode EthernetTypeLLC eth = true /\
    Length eth' = uint16 (len (Bytes b)))).
Proof.
  intros Hser.
  destruct (serialized_has_addresses _ _ _ _ _ _ Hser)
    as [[Hd Hs] | (-> & _ & _)];
    [ | repeat split; left; reflexivity].
  rewrite SerializeTo_header in Hser by assumption.
  destruct (length_mode EthernetTypeLLC eth) eqn:Hmode; cbv zeta in Hser.
  - assert (Heth : eth' = if FixLengths opts
                          then set_Length eth (uint16 (len (Bytes b)))
                          else eth).
    { destruct (negb (EthernetType eth =? EthernetTypeLLC));
        [injection Hser as _ <- _; reflexivity | ].
      destruct (Length _ >? 0x0600); injection Hser as _ <- _; reflexivity. }
    rewrite Heth. destruct (FixLengths opts); cbn [set_Length Base SrcMAC
      DstMAC EthernetType Length]; repeat split;
      [right; repeat split | left; reflexivity].
  - injection Hser as _ <- _. repeat split. left. reflexivity.
Qed.

(** X16. A call that fails after the address checks has already written:
    the buffer has grown by 14 bytes in front of the bytes it held, bytes
    0:12 hold the two addresses, no padding has been appended, and under
    [FixLengths] the [Length] of the layer has been overwritten. *)
Theorem serialize_error_leaves_header (eth eth' : Ethernet)
    (b b' : SerializeBuffer) (opts : SerializeOptions) (e : error) :
  len (DstMAC eth) = 6 -> len (SrcMAC eth) = 6 ->
  SerializeTo EthernetTypeLLC lotsOfZeros_len eth b opts
  = ret (Some e, eth', b') ->
  len (Bytes b') = 14 + len (Bytes b) /\
  skipn 14 (Bytes b') = Bytes b /\
  firstn 12 (Bytes b') = DstMAC eth ++ SrcMAC eth /\
  (FixLengths opts = true -> Length eth' = uint16 (len (Bytes b))).
Proof.
  intros Hd Hs Hser. rewrite SerializeTo_header in Hser by assumption.
  assert (Hb : b' = fill b (partial_header eth b ++ contents b)
               /\ eth' = if FixLengths opts
                         then set_Length eth (uint16 (len (Bytes b)))
                         else eth).
  { destruct (length_mode EthernetTypeLLC eth); cbv zeta in Hser;
      [ | discriminate Hser].
    destruct (negb (EthernetType eth =? EthernetTypeLLC));
      [injection Hser as _ <- <-; split; reflexivity | ].
    destruct (Length _ >? 0x0600); [ | discriminate Hser].
    injection Hser as _ <- <-; split; reflexivity. }
  destruct Hb as [-> ->]. unfold Bytes, fill, partial_header. cbn [contents].
  assert (Hd' : length (DstMAC eth) = 6%nat) by (unfold len in Hd; lia).
  assert (Hs' : length (SrcMAC eth) = 6%nat) by (unfold len in Hs; lia).
  repeat split.
  - unfold len. rewrite !length_app, Hd', Hs'. cbn [length]. lia.
  - rewrite <- !app_assoc.
    replace 14%nat with (length (DstMAC eth) + 8)%nat by lia.
    rewrite skipn_length_app.
    replace 8%nat with (length (SrcMAC eth) + 2)%nat by lia.
    rewrite skipn_length_app. reflexivity.
  - rewrite <- !app_assoc.
    replace 12%nat with (length (DstMAC eth) + 6)%nat by lia.
    rewrite firstn_app_2. f_equal.
    rewrite <- Hs' at 1. rewrite firstn_length_app. reflexivity.
  - intros ->. reflexivity.
Qed.

End MoreSerialization.

(** * Serialization followed by decoding, and the decoder *)

Section FrameRoundTrip.

Variable EthernetTypeLLC : Z.
Variable lotsOfZeros_len : nat.
Context {D : Type} `{DecodeFeedback D}.

Lemma framed_bytes (eth : Ethernet) (v : Z) (b : SerializeBuffer) :
  len (DstMAC eth) = 6 -> len (SrcMAC eth) = 6 ->
  Bytes (framed lotsOfZeros_len eth v b)
  = DstMAC eth ++ SrcMAC eth
    ++ [byte_of_Z (Z.shiftr v 8); byte_of_Z v]
    ++ contents b
    ++ padding lotsOfZeros_len b (14 + len (contents b)).
Proof.
  intros Hd Hs. unfold framed, Bytes, fill, wire_header. cbn [contents].
  rewrite <- !app_assoc. cbn [app]. do 4 f_equal.
  unfold len in *. rewrite !length_app. cbn [length].
  f_equal. f_equal. lia.
Qed.

(** Decoding the frame a successful [SerializeTo] has written, [v] being
    the value of the field. *)
Lemma decode_framed (eth eth0 : Ethernet) (v : Z) (b : SerializeBuffer)
    (df : D) :
  len (DstMAC eth) = 6 -> len (SrcMAC eth) = 6 -> 0 <= v < 65536 ->
  DecodeFromBytes EthernetTypeLLC eth0
    (Bytes (framed lotsOfZeros_len eth v b)) df
  = let rest := contents b
                ++ padding lotsOfZeros_len b (14 + len (contents b)) in
    if v <? 0x0600 then
      ret (None,
           MkEthernet
             (MkBaseLayer (wire_header eth v) (firstn (Z.to_nat v) rest))
             (SrcMAC eth) (DstMAC eth) EthernetTypeLLC v,
           if len rest <? v then SetTruncated df else df)
    else
      ret (None,
           MkEthernet (MkBaseLayer (wire_header eth v) rest)
             (SrcMAC eth) (DstMAC eth) v 0,
           df).
Proof.
  intros Hd Hs Hv.
  assert (Hd' : length (DstMAC eth) = 6%nat) by (unfold len in Hd; lia).
  assert (Hs' : length (SrcMAC eth) = 6%nat) by (unfold len in Hs; lia).
  pose proof (firstn_framed lotsOfZeros_len eth v b Hd Hs) as Hhdr.
  rewrite DecodeFromBytes_header.
  - cbv zeta. rewrite Hhdr. rewrite framed_bytes by assumption.
    rewrite field16_app, skipn_14_app by assumption.
    rewrite blocks_fst, blocks_snd by assumption.
    cbn [nth skipn app]. rewrite read_of_put by assumption. reflexivity.
  - rewrite framed_bytes by assumption. unfold len.
    rewrite !length_app, Hd', Hs'. cbn [length]. lia.
Qed.

Lemma GetNextProtocol_framed (eth : Ethernet) (v : Z) (b : SerializeBuffer) :
  len (DstMAC eth) = 6 -> len (SrcMAC eth) = 6 -> 0 <= v < 65536 ->
  GetNextProtocol (Bytes (framed lotsOfZeros_len eth v b)) = ret v.
Proof.
  intros Hd Hs Hv. rewrite framed_bytes by assumption.
  assert (Hd' : length (DstMAC eth) = 6%nat) by (unfold len in Hd; lia).
  assert (Hs' : length (SrcMAC eth) = 6%nat) by (unfold len in Hs; lia).
  match goal with
  | |- GetNextProtocol (_ ++ _ ++ ?r) = _ =>
      destruct (GetNextProtocol_app (DstMAC eth) (SrcMAC eth) r Hd' Hs')
        as [-> _]
  end.
  - unfold len. cbn [app length]. lia.
  - cbn [app]. rewrite Uint16_pair, read_of_put by assumption. reflexivity.
Qed.

(** X17. A layer in type mode (a type in [0x0600, 0xFFFF] other than
    [EthernetTypeLLC], [Length = 0], two 6-byte addresses) is serialized
    and the frame is decoded: the decoded layer has the same addresses and
    type and [Length = 0]; its payload starts with the bytes the buffer
    held and has [max 46 n] bytes, the padding included. *)
Theorem serialize_decode_type (eth eth0 : Ethernet) (b : SerializeBuffer)
    (opts : SerializeOptions) (df : D) :
  len (DstMAC eth) = 6 -> len (SrcMAC eth) = 6 ->
  Length eth = 0 ->
  0x0600 <= EthernetType eth <= 0xFFFF ->
  EthernetType eth <> EthernetTypeLLC ->
  exists (b' : SerializeBuffer) (eth2 : Ethernet),
    SerializeTo EthernetTypeLLC lotsOfZeros_len eth b opts
    = ret (None, eth, b') /\
    DecodeFromBytes EthernetTypeLLC eth0 (Bytes b') df = ret (None, eth2, df) /\
    DstMAC eth2 = DstMAC eth /\ SrcMAC eth2 = SrcMAC eth /\
    EthernetType eth2 = EthernetType eth /\ Length eth2 = 0 /\
    firstn (length (Bytes b)) (Payload (Base eth2)) = Bytes b /\
    len (Payload (Base eth2)) = Z.max 46 (len (Bytes b)).
Proof.
  intros Hd Hs Hl Hty Hllc.
  rewrite SerializeTo_header by assumption. unfold length_mode.
  rewrite Hl.
  replace (EthernetType eth =? EthernetTypeLLC) with false
    by (symmetry; apply Z.eqb_neq; assumption).
  change (negb (0 =? 0) || false) with false. cbv iota.
  unfold uint16. rewrite Z.mod_small by lia.
  do 2 eexists. split; [reflexivity | ].
  rewrite decode_framed by (assumption || lia). cbv zeta.
  replace (EthernetType eth <? 0x0600) with false
    by (symmetry; apply Z.ltb_ge; lia).
  split; [reflexivity | ]. cbn [DstMAC SrcMAC EthernetType Length Payload Base].
  repeat split.
  - apply firstn_length_app.
  - unfold len, Bytes. rewrite length_app, length_padding. lia.
Qed.

(** X18. A layer with [EthernetTypeLLC] and two 6-byte addresses is
    serialized under [FixLengths] in front of fewer than [0x0600] bytes,
    and the frame is decoded: [Length] is the number of bytes the buffer
    held, on both sides, and the decoded payload is exactly these bytes:
    decoding strips the padding that serialization appended, and does not
    report truncation. *)
Theorem serialize_decode_fix_lengths (eth eth0 : Ethernet)
    (b : SerializeBuffer) (opts : SerializeOptions) (df : D) :
  len (DstMAC eth) = 6 -> len (SrcMAC eth) = 6 ->
  EthernetType eth = EthernetTypeLLC ->
  FixLengths opts = true ->
  len (Bytes b) < 0x0600 ->
  exists (eth1 : Ethernet) (b' : SerializeBuffer) (eth2 : Ethernet),
    SerializeTo EthernetTypeLLC lotsOfZeros_len eth b opts
    = ret (None, eth1, b') /\
    Length eth1 = len (Bytes b) /\
    DecodeFromBytes EthernetTypeLLC eth0 (Bytes b') df = ret (None, eth2, df) /\
    DstMAC eth2 = DstMAC eth /\ SrcMAC eth2 = SrcMAC eth /\
    EthernetType eth2 = EthernetTypeLLC /\ Length eth2 = len (Bytes b) /\
    Payload (Base eth2) = Bytes b.
Proof.
  intros Hd Hs Hty Hfix Hlen. pose proof (len_nonneg (Bytes b)) as Hn.
  rewrite SerializeTo_header by assumption. unfold length_mode.
  rewrite Hty, Z.eqb_refl, orb_true_r, Hfix. cbv zeta.
  cbn [negb Length set_Length]. unfold uint16.
  rewrite Z.mod_small by lia.
  replace (len (Bytes b) >? 0x0600) with false
    by (symmetry; rewrite Z.gtb_ltb; apply Z.ltb_ge; lia).
  do 3 eexists. split; [reflexivity | ]. split; [reflexivity | ].
  rewrite decode_framed by (assumption || lia). cbv zeta.
  replace (len (Bytes b) <? 0x0600) with true
    by (symmetry; apply Z.ltb_lt; lia).
  unfold Bytes in *.
  replace (len (contents b
                ++ padding lotsOfZeros_len b (14 + len (contents b)))
           <? len (contents b)) with false
    by (symmetry; apply Z.ltb_ge; unfold len; rewrite length_app; lia).
  split; [reflexivity | ]. cbn [DstMAC SrcMAC EthernetType Length Payload Base].
  repeat split. unfold len. rewrite Nat2Z.id. apply firstn_length_app.
Qed.

(** X19. Under [FixLengths] the length is the 16-bit conversion of the
    number of bytes in the buffer: in front of [65536 + k] bytes with
    [k <= 0x0600] a layer with [EthernetTypeLLC] is serialized without
    error, with the length [k] in the layer and in the field. *)
Theorem fix_lengths_wraps (eth : Ethernet) (b : SerializeBuffer)
    (opts : SerializeOptions) :
  len (DstMAC eth) = 6 -> len (SrcMAC eth) = 6 ->
  EthernetType eth = EthernetTypeLLC ->
  FixLengths opts = true ->
  65536 <= len (Bytes b) <= 65536 + 0x0600 ->
  exists (eth' : Ethernet) (b' : SerializeBuffer),
    SerializeTo EthernetTypeLLC lotsOfZeros_len eth b opts
    = ret (None, eth', b') /\
    Length eth' = len (Bytes b) - 65536 /\
    GetNextProtocol (Bytes b') = ret (len (Bytes b) - 65536).
Proof.
  intros Hd Hs Hty Hfix Hlen.
  assert (Hwrap : uint16 (len (Bytes b)) = len (Bytes b) - 65536).
  { unfold uint16. symmetry. apply Z.mod_unique with 1; lia. }
  rewrite SerializeTo_header by assumption. unfold length_mode.
  rewrite Hty, Z.eqb_refl, orb_true_r, Hfix. cbv zeta.
  cbn [negb Length set_Length]. rewrite Hwrap.
  replace (len (Bytes b) - 65536 >? 0x0600) with false
    by (symmetry; rewrite Z.gtb_ltb; apply Z.ltb_ge; lia).
  do 2 eexists. split; [reflexivity | ]. split; [reflexivity | ].
  apply GetNextProtocol_framed; (assumption || lia).
Qed.

End FrameRoundTrip.

Section DecoderProperties.

Variable EthernetTypeLLC : Z.
Context {P : Type} `{PacketBuilder P}.

(** X20. [decodeEthernet] on a buffer of at most 13 bytes returns the
    too-short error and the builder as it was: no layer is added and no
    decoder is requested. *)
Theorem decode_ethernet_short (data : list byte) (p : P) :
  len data <= 13 ->
  decodeEthernet EthernetTypeLLC data p = ret (Some ErrTooSmall, p).
Proof.
  intros Hlen. unfold decodeEthernet, DecodeFromBytes.
  replace (len data <? 14) with true by (symmetry; apply Z.ltb_lt; lia).
  reflexivity.
Qed.

(** X21. [decodeEthernet] on a buffer of at least 14 bytes adds the decoded
    layer, sets the same layer as link layer, and then requests the decoder
    of the field value when it is at least [0x0600] and of
    [EthernetTypeLLC] when it is a length; its result is that decoder's. *)
Theorem decode_ethernet_next (data : list byte) (p : P) :
  14 <= len data ->
  exists (eth : Ethernet) (p' : P),
    DecodeFromBytes EthernetTypeLLC (MkEthernet (MkBaseLayer [] []) [] [] 0 0)
      data p = ret (None, eth, p') /\
    decodeEthernet EthernetTypeLLC data p
    = NextDecoder (SetLinkLayer (AddLayer p' eth) eth)
        (if field16 data <? 0x0600 then EthernetTypeLLC else field16 data).
Proof.
  intros Hlen. unfold decodeEthernet.
  rewrite DecodeFromBytes_header by assumption. cbv zeta.
  destruct (field16 data <? 0x0600); do 2 eexists;
    (split; [reflexivity | ]); reflexivity.
Qed.

End DecoderProperties.

(** * The further properties on the examples *)

Lemma set_src_address_witness :
  12 <= len frame_llc /\ 6 <= len mac_01 /\
  exists o' : EthernetHeader,
    SetSrcAddress frame_llc mac_01 = ret o' /\
    GetSrcAddress o' = ret (firstn 6 mac_01) /\
    GetDestAddress o' = ret (firstn 6 frame_llc) /\
    skipn 12 o' = skipn 12 frame_llc /\
    len o' = len frame_llc.
Proof.
  split; [by_computation | ]. split; [by_computation | ].
  apply (set_src_address frame_llc mac_01); by_computation.
Defined.

Lemma set_dest_address_witness :
  12 <= len frame_llc /\ 6 <= len mac_01 /\
  exists o' : EthernetHeader,
    SetDestAddress frame_llc mac_01 = ret o' /\
    GetDestAddress o' = ret (firstn 6 mac_01) /\
    GetSrcAddress o' = ret (firstn 6 (skipn 6 frame_llc)) /\
    skipn 12 o' = skipn 12 frame_llc /\
    len o' = len frame_llc.
Proof.
  split; [by_computation | ]. split; [by_computation | ].
  apply (set_dest_address frame_llc mac_01); by_computation.
Defined.

Lemma set_address_short_witness :
  12 <= len frame_llc /\ len [x01; x02] < 6 /\
  exists o1 o2 : EthernetHeader,
    SetSrcAddress frame_llc [x01; x02] = ret o1 /\
    GetSrcAddress o1
    = ret ([x01; x02]
           ++ skipn (length [x01; x02]) (firstn 6 (skipn 6 frame_llc))) /\
    SetDestAddress frame_llc [x01; x02] = ret o2 /\
    GetDestAddress o2
    = ret ([x01; x02] ++ skipn (length [x01; x02]) (firstn 6 frame_llc)).
Proof.
  split; [by_computation | ]. split; [by_computation | ].
  apply (set_address_short frame_llc [x01; x02]); by_computation.
Defined.

Lemma is_broadcast_iff_witness :
  6 <= len frame_llc /\
  exists r : bool,
    IsBroadcast frame_llc = ret r /\
    (r = true <-> firstn 6 frame_llc = EthernetBroadcast).
Proof.
  split; [by_computation | ].
  apply (is_broadcast_iff frame_llc). by_computation.
Defined.

Lemma set_broadcast_witness :
  6 <= len frame_llc /\
  exists o' : EthernetHeader,
    SetBroadcast frame_llc = ret o' /\
    IsBroadcast o' = ret true /\
    IsMcast o' = ret true /\
    skipn 6 o' = skipn 6 frame_llc /\
    len o' = len frame_llc.
Proof.
  split; [by_computation | ].
  apply (set_broadcast frame_llc). by_computation.
Defined.


Lemma mutators_keep_type_witness :
  14 <= len frame_llc /\
  exists (t : Z) (o1 o2 o3 o4 : EthernetHeader),
    GetNextProtocol frame_llc = ret t /\
    SwapSrcDst frame_llc = ret o1 /\ GetNextProtocol o1 = ret t /\
    SetSrcAddress frame_llc mac_01 = ret o2 /\ GetNextProtocol o2 = ret t /\
    SetDestAddress frame_llc mac_01 = ret o3 /\ GetNextProtocol o3 = ret t /\
    SetBroadcast frame_llc = ret o4 /\ GetNextProtocol o4 = ret t.
Proof.
  split; [by_computation | ].
  apply (mutators_keep_type frame_llc mac_01). by_computation.
Defined.

Lemma decode_agrees_with_view_witness :
  14 <= len frame_llc /\
  exists (eth' : Ethernet) (df' : truncation_flag) (t : Z),
    DecodeFromBytes 0 empty_layer frame_llc (MkFlag false)
    = ret (None, eth', df') /\
    GetDestAddress frame_llc = ret (DstMAC eth') /\
    GetSrcAddress frame_llc = ret (SrcMAC eth') /\
    GetNextProtocol frame_llc = ret t /\
    ((t < 0x0600 /\ Length eth' = t) \/
     (0x0600 <= t /\ EthernetType eth' = t)).
Proof.
  split; [by_computation | ].
  apply (decode_agrees_with_view 0 empty_layer frame_llc (MkFlag false)).
  by_computation.
Defined.

Lemma decode_after_swap_witness :
  14 <= len frame_llc /\
  exists (data' : list byte) (eth1 eth2 : Ethernet) (df1 : truncation_flag),
    SwapSrcDst frame_llc = ret data' /\
    DecodeFromBytes 0 empty_layer frame_llc (MkFlag false)
    = ret (None, eth1, df1) /\
    DecodeFromBytes 0 empty_layer data' (MkFlag false)
    = ret (None, eth2, df1) /\
    DstMAC eth2 = SrcMAC eth1 /\ SrcMAC eth2 = DstMAC eth1 /\
    EthernetType eth2 = EthernetType eth1 /\ Length eth2 = Length eth1 /\
    Payload (Base eth2) = Payload (Base eth1).
Proof.
  split; [by_computation | ].
  apply (decode_after_swap 0 empty_layer frame_llc (MkFlag false)).
  by_computation.
Defined.

Lemma decode_base_layer_witness :
  14 <= len frame_llc /\
  exists (eth' : Ethernet) (df' : truncation_flag),
    DecodeFromBytes 0 empty_layer frame_llc (MkFlag false)
    = ret (None, eth', df') /\
    len (Contents (Base eth')) = 14 /\
    Contents (Base eth') ++ Payload (Base eth')
    = firstn (14 + length (Payload (Base eth'))) frame_llc /\
    (0x0600 <= field16 frame_llc ->
     Contents (Base eth') ++ Payload (Base eth') = frame_llc).
Proof.
  split; [by_computation | ].
  apply (decode_base_layer 0 empty_layer frame_llc (MkFlag false)).
  by_computation.
Defined.

Lemma decode_forgets_layer_witness :
  14 <= len frame_ipv4 /\
  DecodeFromBytes 0 empty_layer frame_ipv4 (MkFlag false)
  = DecodeFromBytes 0 layer_ipv4_length frame_ipv4 (MkFlag false).
Proof.
  split; [by_computation | ].
  apply (decode_forgets_layer 0 empty_layer layer_ipv4_length frame_ipv4
           (MkFlag false)).
  by_computation.
Defined.

Lemma decoded_layer_invariant_witness :
  DecodeFromBytes 0 empty_layer frame_short 0%nat
  = ret (None,
         MkEthernet (MkBaseLayer (firstn 14 frame_short) [x01; x02])
           mac_bb mac_aa 0 5,
         1%nat) /\
  len mac_aa = 6 /\ len mac_bb = 6 /\
  ((0x0600 <= 0 <= 0xFFFF /\ 5 = 0 /\ 1%nat = 0%nat) \/
   (0 = 0 /\ 0 <= 5 < 0x0600 /\
    ((len [x01; x02] = 5 /\ 1%nat = 0%nat) \/
     (len [x01; x02] < 5 /\ 1%nat = SetTruncated 0%nat)))).
Proof.
  assert (Hdec : DecodeFromBytes 0 empty_layer frame_short 0%nat
                 = ret (None,
                        MkEthernet
                          (MkBaseLayer (firstn 14 frame_short) [x01; x02])
                          mac_bb mac_aa 0 5,
                        1%nat)) by reflexivity.
  split; [exact Hdec | ].
  exact (decoded_layer_invariant 0 empty_layer _ frame_short 0%nat 1%nat Hdec).
Defined.

Lemma serialize_frame_length_witness :
  SerializeTo 0 1024 layer_ipv4 small_buffer no_options
  = ret (None, layer_ipv4, framed 1024 layer_ipv4 0x0800 small_buffer) /\
  len (Bytes (framed 1024 layer_ipv4 0x0800 small_buffer))
  = Z.max 60 (14 + len (Bytes small_buffer)) /\
  firstn (length (Bytes small_buffer))
    (skipn 14 (Bytes (framed 1024 layer_ipv4 0x0800 small_buffer)))
  = Bytes small_buffer.
Proof.
  assert (Hser : SerializeTo 0 1024 layer_ipv4 small_buffer no_options
                 = ret (None, layer_ipv4,
                        framed 1024 layer_ipv4 0x0800 small_buffer))
    by reflexivity.
  split; [exact Hser | ].
  exact (serialize_frame_length 0 1024 _ _ _ _ _ Hser).
Defined.

Lemma serialize_layer_change_witness :
  SerializeTo 0 1024 layer_llc small_buffer fix_options
  = ret (None, set_Length layer_llc 2, framed 1024 layer_llc 2 small_buffer) /\
  Base (set_Length layer_llc 2) = Base layer_llc /\
  SrcMAC (set_Length layer_llc 2) = SrcMAC layer_llc /\
  DstMAC (set_Length layer_llc 2) = DstMAC layer_llc /\
  EthernetType (set_Length layer_llc 2) = EthernetType layer_llc /\
  (Length (set_Length layer_llc 2) = Length layer_llc \/
   (FixLengths fix_options = true /\ length_mode 0 layer_llc = true /\
    Length (set_Length layer_llc 2) = uint16 (len (Bytes small_buffer)))).
Proof.
  assert (Hser : SerializeTo 0 1024 layer_llc small_buffer fix_options
                 = ret (None, set_Length layer_llc 2,
                        framed 1024 layer_llc 2 small_buffer))
    by reflexivity.
  split; [exact Hser | ].
  exact (serialize_layer_change 0 1024 _ _ _ _ _ _ Hser).
Defined.

Lemma serialize_error_leaves_header_witness :
  len (DstMAC layer_ipv4_length) = 6 /\ len (SrcMAC layer_ipv4_length) = 6 /\
  SerializeTo 0 1024 layer_ipv4_length small_buffer fix_options
  = ret (Some (ErrTypeLength 0x0800 2), set_Length layer_ipv4_length 2,
         fill small_buffer
           (partial_header layer_ipv4_length small_buffer
            ++ contents small_buffer)) /\
  len (Bytes (fill small_buffer
                (partial_header layer_ipv4_length small_buffer
                 ++ contents small_buffer)))
  = 14 + len (Bytes small_buffer) /\
  skipn 14 (Bytes (fill small_buffer
                     (partial_header layer_ipv4_length small_buffer
                      ++ contents small_buffer)))
  = Bytes small_buffer /\
  firstn 12 (Bytes (fill small_buffer
                      (partial_header layer_ipv4_length small_buffer
                       ++ contents small_buffer)))
  = DstMAC layer_ipv4_length ++ SrcMAC layer_ipv4_length /\
  (FixLengths fix_options = true ->
   Length (set_Length layer_ipv4_length 2) = uint16 (len (Bytes small_buffer))).
Proof.
  assert (Hd : len (DstMAC layer_ipv4_length) = 6) by reflexivity.
  assert (Hs : len (SrcMAC layer_ipv4_length) = 6) by reflexivity.
  assert (Hser : SerializeTo 0 1024 layer_ipv4_length small_buffer fix_options
                 = ret (Some (ErrTypeLength 0x0800 2),
                        set_Length layer_ipv4_length 2,
                        fill small_buffer
                          (partial_header layer_ipv4_length small_buffer
                           ++ contents small_buffer)))
    by reflexivity.
  split; [exact Hd | ]. split; [exact Hs | ]. split; [exact Hser | ].
  exact (serialize_error_leaves_header 0 1024 _ _ _ _ _ _ Hd Hs Hser).
Defined.

Lemma serialize_decode_type_witness :
  len (DstMAC layer_ipv4) = 6 /\ len (SrcMAC layer_ipv4) = 6 /\
  Length layer_ipv4 = 0 /\ 0x0600 <= EthernetType layer_ipv4 <= 0xFFFF /\
  EthernetType layer_ipv4 <> 0 /\
  exists (b' : SerializeBuffer) (eth2 : Ethernet),
    SerializeTo 0 1024 layer_ipv4 small_buffer no_options
    = ret (None, layer_ipv4, b') /\
    DecodeFromBytes 0 empty_layer (Bytes b') (MkFlag false)
    = ret (None, eth2, MkFlag false) /\
    DstMAC eth2 = DstMAC layer_ipv4 /\ SrcMAC eth2 = SrcMAC layer_ipv4 /\
    EthernetType eth2 = EthernetType layer_ipv4 /\ Length eth2 = 0 /\
    firstn (length (Bytes small_buffer)) (Payload (Base eth2))
    = Bytes small_buffer /\
    len (Payload (Base eth2)) = Z.max 46 (len (Bytes small_buffer)).
Proof.
  do 5 (split; [by_computations | ]).
  apply (serialize_decode_type 0 1024 layer_ipv4 empty_layer small_buffer
           no_options (MkFlag false)); by_computations.
Defined.

Lemma serialize_decode_fix_lengths_witness :
  len (DstMAC layer_llc) = 6 /\ len (SrcMAC layer_llc) = 6 /\
  EthernetType layer_llc = 0 /\ FixLengths fix_options = true /\
  len (Bytes small_buffer) < 0x0600 /\
  exists (eth1 : Ethernet) (b' : SerializeBuffer) (eth2 : Ethernet),
    SerializeTo 0 1024 layer_llc small_buffer fix_options
    = ret (None, eth1, b') /\
    Length eth1 = len (Bytes small_buffer) /\
    DecodeFromBytes 0 empty_layer (Bytes b') (MkFlag false)
    = ret (None, eth2, MkFlag false) /\
    DstMAC eth2 = DstMAC layer_llc /\ SrcMAC eth2 = SrcMAC layer_llc /\
    EthernetType eth2 = 0 /\ Length eth2 = len (Bytes small_buffer) /\
    Payload (Base eth2) = Bytes small_buffer.
Proof.
  do 5 (split; [by_computations | ]).
  apply (serialize_decode_fix_lengths 0 1024 layer_llc empty_layer
           small_buffer fix_options (MkFlag false)); by_computations.
Defined.

Lemma fix_lengths_wraps_witness :
  len (DstMAC layer_llc) = 6 /\ len (SrcMAC layer_llc) = 6 /\
  EthernetType layer_llc = 0 /\ FixLengths fix_options = true /\
  65536 <= len (Bytes big_buffer) <= 65536 + 0x0600 /\
  exists (eth' : Ethernet) (b' : SerializeBuffer),
    SerializeTo 0 1024 layer_llc big_buffer fix_options
    = ret (None, eth', b') /\
    Length eth' = len (Bytes big_buffer) - 65536 /\
    GetNextProtocol (Bytes b') = ret (len (Bytes big_buffer) - 65536).
Proof.
  do 5 (split; [by_computations | ]).
  apply (fix_lengths_wraps 0 1024 layer_llc big_buffer fix_options);
    by_computations.
Defined.

Lemma decode_ethernet_short_witness :
  len (firstn 13 frame_llc) <= 13 /\
  decodeEthernet 0 (firstn 13 frame_llc) new_recorder
  = ret (Some ErrTooSmall, new_recorder).
Proof.
  split; [by_computation | ].
  apply (decode_ethernet_short 0 (firstn 13 frame_llc) new_recorder).
  by_computation.
Defined.

Lemma decode_ethernet_next_witness :
  14 <= len frame_ipv4 /\
  exists (eth : Ethernet) (p' : recorder),
    DecodeFromBytes 0 (MkEthernet (MkBaseLayer [] []) [] [] 0 0)
      frame_ipv4 new_recorder = ret (None, eth, p') /\
    decodeEthernet 0 frame_ipv4 new_recorder
    = NextDecoder (SetLinkLayer (AddLayer p' eth) eth)
        (if field16 frame_ipv4 <? 0x0600 then 0 else field16 frame_ipv4).
Proof.
  split; [by_computation | ].
  apply (decode_ethernet_next 0 frame_ipv4 new_recorder). by_computation.
Defined.
